(** * sfpythonhello: the HTTP handler of [main.py]

    A shallow embedding of [MyHTTPRequestHandler] and of the parts of the
    Python standard library its methods call ([datetime.isoformat],
    [os.environ.get], [json.dumps], [str.encode], [print] and the
    response API of [http.server.BaseHTTPRequestHandler]), followed by
    the properties of the handler.

    Python [str] values are lists of Unicode code points, [bytes] values
    are lists of [Byte.byte].  The methods of the class run in a small
    state-and-exception monad over the handler object and the process
    (clock, environment, standard output). *)

From Stdlib Require Import NArith Ascii String List Bool Lia.
From Stdlib.Strings Require Import Byte.
From stdpp Require Import base option list gmap.

Local Open Scope N_scope.

(** ** Python strings and bytes *)

(** A Python [str]: a sequence of code points. *)
Abbreviation str := (list N).

(** A Python [bytes] object. *)
Abbreviation bytes := (list byte).

(** The [str] denoted by an ASCII literal of the source. *)
Definition py (s : string) : str :=
  map N_of_ascii (list_ascii_of_string s).

(** The same, with every apostrophe of the literal read as a double
    quote (for texts that contain quotes). *)
Definition pyq (s : string) : str :=
  map (fun c => if c =? 39 then 34 else c) (py s).

(** [bytes([n])] for a value below 256. *)
Definition byte_of_N (n : N) : byte :=
  match Byte.of_N (n mod 256) with
  | Some b => b
  | None => x00
  end.

(** [str.encode("utf-8")] on one code point; [None] stands for the
    [UnicodeEncodeError] raised on a surrogate (or on a value that is not
    a code point). *)
Definition utf8_encode_char (c : N) : option bytes :=
  if c <? 128 then Some [byte_of_N c]
  else if c <? 2048 then
    Some [byte_of_N (192 + c / 64); byte_of_N (128 + c mod 64)]
  else if (55296 <=? c) && (c <=? 57343) then None
  else if c <? 65536 then
    Some [byte_of_N (224 + c / 4096); byte_of_N (128 + (c / 64) mod 64);
          byte_of_N (128 + c mod 64)]
  else if c <? 1114112 then
    Some [byte_of_N (240 + c / 262144); byte_of_N (128 + (c / 4096) mod 64);
          byte_of_N (128 + (c / 64) mod 64); byte_of_N (128 + c mod 64)]
  else None.

Fixpoint utf8_encode (s : str) : option bytes :=
  match s with
  | [] => Some []
  | c :: r =>
      match utf8_encode_char c, utf8_encode r with
      | Some b, Some br => Some (b ++ br)
      | _, _ => None
      end
  end.

(** [bytes.decode("ascii")]: every byte below 128 is its code point, any
    other byte is an error.  ASCII text is also the UTF-8 decoding of the
    same bytes. *)
Fixpoint ascii_decode (b : bytes) : option str :=
  match b with
  | [] => Some []
  | x :: r =>
      if Byte.to_N x <? 128 then
        match ascii_decode r with
        | Some s => Some (Byte.to_N x :: s)
        | None => None
        end
      else None
  end.

(** Text of ASCII characters only. *)
Definition is_ascii (s : str) : Prop := Forall (fun c => c < 128) s.

(** ** Decimal formatting: ["%d"] and ["%0wd"] *)

Definition digit_char (d : N) : N := 48 + d.

Fixpoint decimal_aux (fuel : nat) (n : N) (acc : str) : str :=
  match fuel with
  | O => acc
  | S f =>
      if n <? 10 then digit_char n :: acc
      else decimal_aux f (n / 10) (digit_char (n mod 10) :: acc)
  end.

(** ["%d" % n]; a number of [k] bits has at most [k] decimal digits. *)
Definition decimal (n : N) : str :=
  decimal_aux (S (N.to_nat (N.log2 n))) n [].

(** ["%0wd" % n]: left-padded with zeros up to width [w], never cut. *)
Definition format_0d (w : nat) (n : N) : str :=
  let s := decimal n in
  repeat (digit_char 0) (w - length s)%nat ++ s.

(** The [w] low-order decimal digits of [n], most significant first. *)
Fixpoint fixed_digits (w : nat) (n : N) : str :=
  match w with
  | O => []
  | S w' => fixed_digits w' (n / 10) ++ [digit_char (n mod 10)]
  end.

(** ** [datetime] *)

Record datetime := mk_datetime {
  year : N; month : N; day : N;
  hour : N; minute : N; second : N; microsecond : N
}.

Definition is_leap (y : N) : bool :=
  (y mod 4 =? 0) && (negb (y mod 100 =? 0) || (y mod 400 =? 0)).

Definition days_in_month (y m : N) : N :=
  if m =? 2 then (if is_leap y then 29 else 28)
  else if (m =? 4) || (m =? 6) || (m =? 9) || (m =? 11) then 30
  else 31.

(** The range checks of the [datetime] constructor; every object
    returned by [datetime.now()] passes them. *)
Definition datetime_ok (d : datetime) : bool :=
  (1 <=? year d) && (year d <=? 9999) &&
  (1 <=? month d) && (month d <=? 12) &&
  (1 <=? day d) && (day d <=? days_in_month (year d) (month d)) &&
  (hour d <? 24) && (minute d <? 60) && (second d <? 60) &&
  (microsecond d <? 1000000).

(** [datetime.isoformat()] of a naive datetime, default separator and
    [timespec='auto']: the fraction is written only when it is not 0. *)
Definition isoformat (d : datetime) : str :=
  format_0d 4 (year d) ++ py "-" ++ format_0d 2 (month d) ++ py "-" ++
  format_0d 2 (day d) ++ py "T" ++
  format_0d 2 (hour d) ++ py ":" ++ format_0d 2 (minute d) ++ py ":" ++
  format_0d 2 (second d) ++
  (if microsecond d =? 0 then [] else py "." ++ format_0d 6 (microsecond d)).

(** Chronological order of naive datetimes: lexicographic on the fields,
    as [datetime.__le__] compares them. *)
Definition datetime_key (d : datetime) : list N :=
  [year d; month d; day d; hour d; minute d; second d; microsecond d].

Fixpoint lex_leb (a b : list N) : bool :=
  match a, b with
  | [], _ => true
  | _ :: _, [] => false
  | x :: a', y :: b' => (x <? y) || ((x =? y) && lex_leb a' b')
  end.

Definition datetime_leb (d1 d2 : datetime) : bool :=
  lex_leb (datetime_key d1) (datetime_key d2).

(** *** Reading an ISO-8601 timestamp

    The extended format [YYYY-MM-DDThh:mm:ss] with an optional fraction
    of six digits, and the calendar checks on the fields. *)

Definition digit_val (c : N) : option N :=
  if (48 <=? c) && (c <=? 57) then Some (c - 48) else None.

Fixpoint digits_val (acc : N) (s : str) : option N :=
  match s with
  | [] => Some acc
  | c :: r =>
      match digit_val c with
      | Some d => digits_val (acc * 10 + d) r
      | None => None
      end
  end.

(** [s[:n]] and [s[n:]], when [s] has at least [n] characters. *)
Definition take_exact (n : nat) (s : str) : option (str * str) :=
  if (n <=? length s)%nat then Some (firstn n s, skipn n s) else None.

(** A field of [n] decimal digits at the head of [s]. *)
Definition read_field (n : nat) (s : str) : option (N * str) :=
  '(f, r) ← take_exact n s;
  v ← digits_val 0 f;
  Some (v, r).

(** [s] without its first character, when that is [c]. *)
Definition next_is (c : N) (s : str) : option str :=
  match s with
  | x :: r => if x =? c then Some r else None
  | [] => None
  end.

(** The separators are the hyphen 45, the letter T 84, the colon 58 and
    the full stop 46. *)
Definition parse_iso8601 (s : str) : option datetime :=
  '(y, s) ← read_field 4 s;
  s ← next_is 45 s;
  '(mo, s) ← read_field 2 s;
  s ← next_is 45 s;
  '(d, s) ← read_field 2 s;
  s ← next_is 84 s;
  '(h, s) ← read_field 2 s;
  s ← next_is 58 s;
  '(mi, s) ← read_field 2 s;
  s ← next_is 58 s;
  '(se, s) ← read_field 2 s;
  us ← match s with
       | [] => Some 0
       | _ :: _ =>
           s ← next_is 46 s;
           '(us, s) ← read_field 6 s;
           match s with [] => Some us | _ :: _ => None end
       end;
  let r := mk_datetime y mo d h mi se us in
  if datetime_ok r then Some r else None.

(** ** [json]

    [json.dumps] with its defaults ([ensure_ascii=True], separators
    [", "] and [": "]) at the type of [response_data], a [dict] from
    [str] to [str] in insertion order. *)

(** ["0123456789abcdef"[d]] *)
Definition hex_char (d : N) : N := if d <? 10 then 48 + d else 87 + d.

(** ['{0:04x}'.format(n)], called on values below [0x10000] only. *)
Definition hex4 (n : N) : str :=
  [hex_char (n / 4096 mod 16); hex_char (n / 256 mod 16);
   hex_char (n / 16 mod 16); hex_char (n mod 16)].

(** The UTF-16 code units of a code point: itself in the basic plane, a
    surrogate pair above it, computed as [replace] does in
    [py_encode_basestring_ascii]. *)
Definition utf16 (c : N) : list N :=
  if c <? 65536 then [c]
  else
    let n := c - 65536 in
    [N.lor 55296 (N.land (N.shiftr n 10) 1023); N.lor 56320 (N.land n 1023)].

(** [replace]: a character that [ESCAPE_ASCII] matches (the quote 34, the
    backslash 92, and all outside the range from space to tilde) is
    looked up in [ESCAPE_DCT] or written as [\uXXXX]; other characters
    stay.  (A Rocq string has no escapes: each literal below is a
    backslash and one more character.) *)
Definition escape_char (c : N) : str :=
  if c =? 34 then [92; 34]
  else if c =? 92 then py "\\"
  else if c =? 10 then py "\n"
  else if c =? 13 then py "\r"
  else if c =? 9 then py "\t"
  else if c =? 12 then py "\f"
  else if c =? 8 then py "\b"
  else if (32 <=? c) && (c <=? 126) then [c]
  else flat_map (fun u => py "\u" ++ hex4 u) (utf16 c).

Definition encode_basestring_ascii (s : str) : str :=
  [34] ++ flat_map escape_char s ++ [34].

Fixpoint dumps_items (items : list (str * str)) : str :=
  match items with
  | [] => []
  | (k, v) :: rest =>
      encode_basestring_ascii k ++ py ": " ++ encode_basestring_ascii v ++
      match rest with
      | [] => []
      | _ :: _ => py ", " ++ dumps_items rest
      end
  end.

Definition json_dumps (d : list (str * str)) : str :=
  py "{" ++ dumps_items d ++ py "}".

(** *** Reading JSON text (RFC 8259)

    Strings are read to their UTF-16 code units, numbers are kept as
    their lexeme. *)

#[local] Unset Elimination Schemes.
Inductive json :=
| JNull
| JBool (b : bool)
| JNumber (lexeme : str)
| JString (units : list N)
| JArray (elements : list json)
| JObject (members : list (list N * json)).
#[local] Set Elimination Schemes.

Fixpoint skip_ws (s : str) : str :=
  match s with
  | c :: r =>
      if (c =? 32) || (c =? 9) || (c =? 10) || (c =? 13) then skip_ws r else s
  | [] => []
  end.

Fixpoint strip_prefix (p s : str) : option str :=
  match p with
  | [] => Some s
  | c :: p' => r ← next_is c s; strip_prefix p' r
  end.

Definition hex_val (c : N) : option N :=
  if (48 <=? c) && (c <=? 57) then Some (c - 48)
  else if (97 <=? c) && (c <=? 102) then Some (c - 87)
  else if (65 <=? c) && (c <=? 70) then Some (c - 55)
  else None.

Definition hex4_val (h1 h2 h3 h4 : N) : option N :=
  v1 ← hex_val h1; v2 ← hex_val h2; v3 ← hex_val h3; v4 ← hex_val h4;
  Some (v1 * 4096 + v2 * 256 + v3 * 16 + v4).

(** The character after a backslash, other than [u]. *)
Definition simple_escape (e : N) : option N :=
  if e =? 34 then Some 34
  else if e =? 92 then Some 92
  else if e =? 47 then Some 47
  else if e =? 98 then Some 8
  else if e =? 102 then Some 12
  else if e =? 110 then Some 10
  else if e =? 114 then Some 13
  else if e =? 116 then Some 9
  else None.

(** The rest of a string after its opening quote: the code units up to
    the closing quote, and the text after it. *)
Fixpoint scan_string (s : str) : option (list N * str) :=
  match s with
  | [] => None
  | c :: r =>
      if c =? 34 then Some ([], r)
      else if c =? 92 then
        match r with
        | [] => None
        | e :: r1 =>
            if e =? 117 then
              match r1 with
              | h1 :: h2 :: h3 :: h4 :: r2 =>
                  match hex4_val h1 h2 h3 h4, scan_string r2 with
                  | Some u, Some (us, rest) => Some (u :: us, rest)
                  | _, _ => None
                  end
              | _ => None
              end
            else
              match simple_escape e, scan_string r1 with
              | Some u, Some (us, rest) => Some (u :: us, rest)
              | _, _ => None
              end
        end
      else if c <? 32 then None
      else
        match scan_string r with
        | Some (us, rest) => Some (utf16 c ++ us, rest)
        | None => None
        end
  end.

Definition is_digit (c : N) : bool := (48 <=? c) && (c <=? 57).

(** The longest prefix of digits, and the rest. *)
Fixpoint span_digits (s : str) : str * str :=
  match s with
  | c :: r =>
      if is_digit c then let '(d, rest) := span_digits r in (c :: d, rest)
      else ([], s)
  | [] => ([], [])
  end.

(** One or more digits. *)
Definition digits1 (s : str) : option (str * str) :=
  match span_digits s with
  | ([], _) => None
  | (d, rest) => Some (d, rest)
  end.

(** [number = [ minus ] int [ frac ] [ exp ]] *)
Definition scan_number (s : str) : option (str * str) :=
  let '(sign, s) :=
    match next_is 45 s with Some r => (py "-", r) | None => ([], s) end in
  '(int, s) ← match next_is 48 s with
               | Some r => Some (py "0", r)
               | None => digits1 s
               end;
  '(frac, s) ← match next_is 46 s with
                | Some r => '(d, r) ← digits1 r; Some (py "." ++ d, r)
                | None => Some ([], s)
                end;
  '(exp, s) ← match s with
               | e :: r =>
                   if (e =? 101) || (e =? 69) then
                     let '(sg, r) :=
                       match r with
                       | x :: r' =>
                           if (x =? 43) || (x =? 45) then ([x], r') else ([], r)
                       | [] => ([], r)
                       end in
                     '(d, r) ← digits1 r; Some (e :: sg ++ d, r)
                   else Some ([], s)
               | [] => Some ([], s)
               end;
  Some (sign ++ int ++ frac ++ exp, s).

Fixpoint parse_value (fuel : nat) (s : str) : option (json * str) :=
  match fuel with
  | O => None
  | S f =>
      match skip_ws s with
      | [] => None
      | c :: r =>
          if c =? 34 then
            '(u, rest) ← scan_string r; Some (JString u, rest)
          else if c =? 123 then
            match next_is 125 (skip_ws r) with
            | Some rest => Some (JObject [], rest)
            | None => '(ms, rest) ← parse_members f r; Some (JObject ms, rest)
            end
          else if c =? 91 then
            match next_is 93 (skip_ws r) with
            | Some rest => Some (JArray [], rest)
            | None => '(es, rest) ← parse_elements f r; Some (JArray es, rest)
            end
          else if c =? 116 then
            rest ← strip_prefix (py "rue") r; Some (JBool true, rest)
          else if c =? 102 then
            rest ← strip_prefix (py "alse") r; Some (JBool false, rest)
          else if c =? 110 then
            rest ← strip_prefix (py "ull") r; Some (JNull, rest)
          else
            '(lexeme, rest) ← scan_number (c :: r); Some (JNumber lexeme, rest)
      end
  end
with parse_members (fuel : nat) (s : str)
  : option (list (list N * json) * str) :=
  match fuel with
  | O => None
  | S f =>
      r ← next_is 34 (skip_ws s);
      '(k, r) ← scan_string r;
      r ← next_is 58 (skip_ws r);
      '(v, r) ← parse_value f r;
      match skip_ws r with
      | c :: r =>
          if c =? 125 then Some ([(k, v)], r)
          else if c =? 44 then
            '(ms, r) ← parse_members f r; Some ((k, v) :: ms, r)
          else None
      | [] => None
      end
  end
with parse_elements (fuel : nat) (s : str) : option (list json * str) :=
  match fuel with
  | O => None
  | S f =>
      '(v, r) ← parse_value f s;
      match skip_ws r with
      | c :: r =>
          if c =? 93 then Some ([v], r)
          else if c =? 44 then
            '(es, r) ← parse_elements f r; Some (v :: es, r)
          else None
      | [] => None
      end
  end.

(** A whole JSON text: one value, then white space only.  Every nested
    value starts at least one character further, so the length of the
    text is fuel enough. *)
Definition json_loads (s : str) : option json :=
  '(v, rest) ← parse_value (S (length s)) s;
  match skip_ws rest with
  | [] => Some v
  | _ :: _ => None
  end.

(** The object that the text of [json.dumps d] denotes. *)
Definition json_of_dict (d : list (str * str)) : json :=
  JObject
    (map (fun kv => (flat_map utf16 kv.1, JString (flat_map utf16 kv.2))) d).

(** [obj[k]] on a parsed object. *)
Definition json_get (k : string) (v : json) : option json :=
  match v with
  | JObject ms => snd <$> find (fun m => bool_decide (fst m = py k)) ms
  | _ => None
  end.

(** [list(obj.keys())] *)
Definition json_keys (v : json) : option (list (list N)) :=
  match v with
  | JObject ms => Some (map fst ms)
  | _ => None
  end.

(** ** The process and the handler object *)

(** What the handler reads and writes outside its own object: the local
    wall clock ([clock k] is what the [k]-th call of [datetime.now()] of
    the process returns, [clock_reads] counts the calls made so far),
    the mapping [os.environ], and the text written to standard output. *)
Record process := mk_process {
  clock : nat -> datetime;
  clock_reads : nat;
  environ : gmap str str;
  stdout : str
}.

(** The attributes of [self] that the request line and the connection
    set before a [do_*] method runs.  [requestline] is the line as it
    was received, without its end of line; [command] and [path] are its
    first two words. *)
Record request := mk_request {
  requestline : str;
  command : str;
  path : str;
  client_address : str * N;
  headers : list (str * str);
  rfile : bytes
}.

(** What the handler has asked [BaseHTTPRequestHandler] to send: the
    status of [send_response], the headers of [send_header] in order,
    whether [end_headers] was called, and the bytes written to [wfile].
    What the base class adds of its own (its [Server] and [Date]
    headers, its access log on standard error) is kept apart, in
    [base] below. *)
Record response := mk_response {
  status : option N;
  header_lines : list (str * str);
  headers_ended : bool;
  wfile : bytes
}.

Definition no_response : response := mk_response None [] false [].

(** The value of a header in the buffer of the base class: the text the
    caller gave, or one of the two values the base class computes
    itself, [version_string()] and [date_time_string()]. *)
Inductive header_value :=
| Literal (v : str)
| VersionString
| DateTimeString.

(** One call of [log_message]: the client address and the message.
    Each call writes one line to standard error. *)
Record log_entry := mk_log {
  log_address : str;
  log_text : str
}.

(** What the base class does of its own while a method runs: the calls
    of [log_message], and its buffer of headers, where the headers of
    [send_response] stand among those of the handler. *)
Record base := mk_base {
  stderr_log : list log_entry;
  headers_buffer : list (str * header_value)
}.

Definition no_base : base := mk_base [] [].

Record state := mk_state {
  self_response : response;
  proc : process;
  self_base : base
}.

Inductive exn := UnicodeEncodeError.

Inductive result (A : Type) :=
| Ok (a : A)
| Raise (e : exn).
Arguments Ok {A} a.
Arguments Raise {A} e.

(** A method of the handler: it reads the request, updates the response
    and the process, and returns or raises. *)
Definition M (A : Type) : Type := request -> state -> state * result A.

#[local] Instance M_ret : MRet M := fun A a _ st => (st, Ok a).

#[local] Instance M_bind : MBind M := fun A B f m r st =>
  match m r st with
  | (st', Ok a) => f a r st'
  | (st', Raise e) => (st', Raise e)
  end.

(** An attribute of [self]. *)
Definition self {A} (attr : request -> A) : M A :=
  fun r st => (st, Ok (attr r)).

Definition update_response (f : response -> response) : M unit :=
  fun _ st => (mk_state (f (self_response st)) (proc st) (self_base st), Ok tt).

Definition update_process (f : process -> process) : M unit :=
  fun _ st => (mk_state (self_response st) (f (proc st)) (self_base st), Ok tt).

(** [datetime.now()] *)
Definition datetime_now : M datetime :=
  fun _ st =>
    let p := proc st in
    (mk_state (self_response st)
       (mk_process (clock p) (S (clock_reads p)) (environ p) (stdout p))
       (self_base st),
     Ok (clock p (clock_reads p))).

(** [os.environ.get(key, default)] *)
Definition os_environ_get (key default : str) : M str :=
  fun _ st => (st, Ok (from_option id default (environ (proc st) !! key))).

(** [os.environ[key] = value].  No line of [main.py] does this; it is
    here to speak of an environment changed while the server runs. *)
Definition os_environ_set (key value : str) (p : process) : process :=
  mk_process (clock p) (clock_reads p) (<[key := value]> (environ p)) (stdout p).

Definition write_stdout (s : str) (p : process) : process :=
  mk_process (clock p) (clock_reads p) (environ p) (stdout p ++ s).

(** [print(s)]: the text and a newline.  The write to standard output
    is taken to succeed (an encoding of [sys.stdout] that cannot write
    the text, or a closed pipe, would raise here). *)
Definition print (s : str) : M unit :=
  update_process (write_stdout (s ++ [10])).

Definition update_base (f : base -> base) : M unit :=
  fun _ st => (mk_state (self_response st) (proc st) (f (self_base st)), Ok tt).

(** [self.log_message(format, *args)], where [message] is
    [format % args]: one line on standard error, after
    [self.address_string()], which is [self.client_address[0]]. *)
Definition log_message (message : str) : M unit :=
  address ← self (fun r => fst (client_address r));
  update_base (fun b =>
    mk_base (stderr_log b ++ [mk_log address message]) (headers_buffer b)).

(** [self.log_request(code)]: the message is
    ['"%s" %s %s' % (self.requestline, str(code), '-')]. *)
Definition log_request (code : N) : M unit :=
  line ← self requestline;
  log_message ([34] ++ line ++ [34] ++ py " " ++ decimal code ++ py " -").

(** A header line appended to [_headers_buffer]. *)
Definition buffer_header (keyword : str) (value : header_value) : M unit :=
  update_base (fun b =>
    mk_base (stderr_log b) (headers_buffer b ++ [(keyword, value)])).

(** [self.send_response(code)]: the base class logs the request, puts
    the status line in the buffer, and adds its [Server] and [Date]
    headers. *)
Definition send_response (code : N) : M unit :=
  log_request code;;
  update_response (fun o =>
    mk_response (Some code) (header_lines o) (headers_ended o) (wfile o));;
  buffer_header (py "Server") VersionString;;
  buffer_header (py "Date") DateTimeString.

(** [self.send_header(keyword, value)], as the handler calls it:
    [header_lines] keeps the headers that the code of the handler asks
    for; the buffer has them among those of the base class. *)
Definition send_header (keyword value : str) : M unit :=
  buffer_header keyword (Literal value);;
  update_response (fun o =>
    mk_response (status o) (header_lines o ++ [(keyword, value)])
      (headers_ended o) (wfile o)).

(** [self.end_headers()] *)
Definition end_headers : M unit :=
  update_response (fun o =>
    mk_response (status o) (header_lines o) true (wfile o)).

(** [self.wfile.write(data)].  The write to the socket is taken to
    succeed (a peer that has gone would make it raise). *)
Definition wfile_write (data : bytes) : M unit :=
  update_response (fun o =>
    mk_response (status o) (header_lines o) (headers_ended o) (wfile o ++ data)).

(** [s.encode("utf-8")] *)
Definition encode_utf8 (s : str) : M bytes :=
  fun _ st =>
    (st, match utf8_encode s with
         | Some b => Ok b
         | None => Raise UnicodeEncodeError
         end).

(** ** [main.py]: [MyHTTPRequestHandler] *)

Definition send_cors_headers : M unit :=
  send_header (py "Access-Control-Allow-Origin") (py "*");;
  send_header (py "Access-Control-Allow-Methods") (py "GET, POST, OPTIONS");;
  send_header (py "Access-Control-Allow-Headers") (py "Content-Type").

(** The dictionary built in [handle_request]. *)
Definition response_data (dt : datetime) (version : str) : list (str * str) :=
  [(py "message", py "Hello from python");
   (py "dt", isoformat dt);
   (py "version", version)].

(** The text of the f-string printed by [handle_request]. *)
Definition log_line (command path client_ip : str) : str :=
  py "Request received: " ++ command ++ py " " ++ path ++
  py " from " ++ client_ip.

Definition handle_request : M unit :=
  dt ← datetime_now;
  version ← os_environ_get (py "SF_TAG") (py "latest");
  client_ip ← self (fun r => fst (client_address r));
  command ← self command;
  path ← self path;
  print (log_line command path client_ip);;
  let response_data := response_data dt version in
  send_response 200;;
  send_header (py "Content-Type") (py "application/json");;
  send_cors_headers;;
  end_headers;;
  body ← encode_utf8 (json_dumps response_data);
  wfile_write body.

Definition do_GET : M unit := handle_request.

Definition do_POST : M unit := handle_request.

Definition do_OPTIONS : M unit :=
  send_response 200;;
  send_cors_headers;;
  end_headers.

(** The methods the class body defines, by name. *)
Definition class_dict : list (str * M unit) :=
  [(py "do_GET", do_GET);
   (py "do_POST", do_POST);
   (py "do_OPTIONS", do_OPTIONS);
   (py "handle_request", handle_request);
   (py "send_cors_headers", send_cors_headers)].

(** ** The server around the handler

    [BaseHTTPRequestHandler.handle_one_request], after it has parsed the
    request line: the method named ["do_" + command] is called when the
    class has one, otherwise the base class answers by
    [send_error(501)].  The base class defines no [do_*] method itself. *)

Inductive outcome :=
| Responded (o : response)
| Failed (e : exn) (o : response)
| SendError (code : N).

Definition getattr (name : str) : option (M unit) :=
  snd <$> find (fun m => bool_decide (fst m = name)) class_dict.

Definition handle_one_request (r : request) (p : process)
  : process * outcome :=
  match getattr (py "do_" ++ command r) with
  | None => (p, SendError 501)
  | Some method =>
      let '(st, res) := method r (mk_state no_response p no_base) in
      (proc st,
       match res with
       | Ok _ => Responded (self_response st)
       | Raise e => Failed e (self_response st)
       end)
  end.

(** What the base class has logged and buffered when the method of a
    request returns; [None] when the class has no method for the
    request (the base class then answers by [send_error], whose own
    output is left out). *)
Definition handle_one_request_base (r : request) (p : process) : option base :=
  method ← getattr (py "do_" ++ command r);
  Some (self_base (method r (mk_state no_response p no_base)).1).

(** [TCPServer.serve_forever] over the requests that arrive, one after
    the other. *)
Fixpoint serve_forever (p : process) (reqs : list request)
  : process * list outcome :=
  match reqs with
  | [] => (p, [])
  | r :: rest =>
      let '(p1, o) := handle_one_request r p in
      let '(p2, os) := serve_forever p1 rest in
      (p2, o :: os)
  end.

Definition PORT : N := 3000.
Definition HOST : str := py "0.0.0.0".

(** The module body: two start-up messages, the construction of the
    server, two more messages, then the server loop.  [bound] tells
    whether [socketserver.TCPServer((HOST, PORT), ...)] can bind the
    address and listen; when it cannot, the constructor raises [OSError]
    and the program ends there ([None]). *)
Definition main (bound : bool) (p : process) (reqs : list request)
  : process * option (list outcome) :=
  let p := write_stdout (py "Script start" ++ [10]) p in
  let p := write_stdout (py "Server created" ++ [10]) p in
  if bound then
    let p := write_stdout (py "Server listening callback" ++ [10]) p in
    let p := write_stdout
               (py "Server running on " ++ HOST ++ py ":" ++ decimal PORT ++ [10])
               p in
    let '(p, os) := serve_forever p reqs in
    (p, Some os)
  else (p, None).

(** ** The runs of the two paths, in closed form *)

(** The value [handle_request] reads for [version]. *)
Definition version_in (p : process) : str :=
  from_option id (py "latest") (environ p !! py "SF_TAG").

(** The response [handle_request] builds from a clock reading and a
    version. *)
Definition json_response (dt : datetime) (version : str) : response :=
  mk_response (Some 200)
    [(py "Content-Type", py "application/json");
     (py "Access-Control-Allow-Origin", py "*");
     (py "Access-Control-Allow-Methods", py "GET, POST, OPTIONS");
     (py "Access-Control-Allow-Headers", py "Content-Type")]
    true
    (map byte_of_N (json_dumps (response_data dt version))).

Definition options_response : response :=
  mk_response (Some 200)
    [(py "Access-Control-Allow-Origin", py "*");
     (py "Access-Control-Allow-Methods", py "GET, POST, OPTIONS");
     (py "Access-Control-Allow-Headers", py "Content-Type")]
    true [].

(** The process after [handle_request]: one more clock reading, one
    more line on standard output. *)
Definition process_after (r : request) (p : process) : process :=
  mk_process (clock p) (S (clock_reads p)) (environ p)
    (stdout p ++
     log_line (command r) (path r) (client_address r).1 ++ [10]).

(** The entry that [send_response(code)] logs for a request. *)
Definition access_entry (r : request) (code : N) : log_entry :=
  mk_log (client_address r).1
    ([34] ++ requestline r ++ [34] ++ py " " ++ decimal code ++ py " -").

(** What the base class has logged and buffered after [handle_request]. *)
Definition json_base (r : request) : base :=
  mk_base [access_entry r 200]
    [(py "Server", VersionString);
     (py "Date", DateTimeString);
     (py "Content-Type", Literal (py "application/json"));
     (py "Access-Control-Allow-Origin", Literal (py "*"));
     (py "Access-Control-Allow-Methods", Literal (py "GET, POST, OPTIONS"));
     (py "Access-Control-Allow-Headers", Literal (py "Content-Type"))].

(** What the base class has logged and buffered after [do_OPTIONS]. *)
Definition options_base (r : request) : base :=
  mk_base [access_entry r 200]
    [(py "Server", VersionString);
     (py "Date", DateTimeString);
     (py "Access-Control-Allow-Origin", Literal (py "*"));
     (py "Access-Control-Allow-Methods", Literal (py "GET, POST, OPTIONS"));
     (py "Access-Control-Allow-Headers", Literal (py "Content-Type"))].

(** ** What the console shows *)

(** The lines of a console text: one per newline. *)
Definition count_lines (s : str) : nat :=
  length (filter (fun c => c = 10) s).

(** ['\x{c:02x}'] for a character below [0x100]. *)
Definition hex2 (c : N) : str := [hex_char (c / 16 mod 16); hex_char (c mod 16)].

(** [message.translate(self._control_char_table)] on one character: a
    control character (below [0x20], or from [0x7f] to [0x9f]) is
    written as [\xNN], the backslash is doubled. *)
Definition log_escape_char (c : N) : str :=
  if c =? 92 then [92; 92]
  else if (c <? 32) || ((127 <=? c) && (c <? 160)) then [92; 120] ++ hex2 c
  else [c].

(** The line that [log_message] writes to standard error for an entry:
    ["%s - - [%s] %s\n"] with the address, [log_date_time_string()] and
    the message.  [date] is the text of the time of the call. *)
Definition stderr_line (date : str) (e : log_entry) : str :=
  log_address e ++ py " - - [" ++ date ++ py "] " ++
  flat_map log_escape_char (log_text e) ++ [10].

(** The lines that a request served by a method of the class adds to
    the console: those the handler prints on standard output and those
    the base class writes on standard error. *)
Definition console_lines (date : str) (r : request) (p : process)
  : option nat :=
  b ← handle_one_request_base r p;
  Some ((count_lines (stdout (handle_one_request r p).1)
         - count_lines (stdout p))
        + count_lines (flat_map (stderr_line date) (stderr_log b)))%nat.

(** ** What a client sees of a response *)

Definition responded (o : outcome) : option response :=
  match o with
  | Responded r => Some r
  | _ => None
  end.

(** The body, read as JSON. *)
Definition body_json (o : response) : option json :=
  s ← ascii_decode (wfile o); json_loads s.

(** A string member of the JSON body, as code units. *)
Definition body_field (k : string) (o : response) : option (list N) :=
  v ← body_json o;
  m ← json_get k v;
  match m with
  | JString u => Some u
  | _ => None
  end.

(** The [dt] member of the body, read as a timestamp. *)
Definition body_dt (o : response) : option datetime :=
  u ← body_field "dt" o; parse_iso8601 u.

Definition has_header (k v : string) (o : response) : Prop :=
  In (py k, py v) (header_lines o).

Definition cors_headers (o : response) : Prop :=
  has_header "Access-Control-Allow-Origin" "*" o /\
  has_header "Access-Control-Allow-Methods" "GET, POST, OPTIONS" o /\
  has_header "Access-Control-Allow-Headers" "Content-Type" o.

(** The [version] member of the body. *)
Definition body_version (o : response) : option (list N) :=
  body_field "version" o.

(** The [dt] members of the JSON bodies of a run, in order. *)
Definition timestamps (os : list outcome) : list datetime :=
  omap (fun o => r ← responded o; body_dt r) os.

(** The [version] members of the JSON bodies of a run, in order. *)
Definition versions (os : list outcome) : list (list N) :=
  omap (fun o => r ← responded o; body_version r) os.

(** The requests that [do_GET] or [do_POST] serve. *)
Definition get_or_post (r : request) : Prop :=
  command r = py "GET" \/ command r = py "POST".

#[global] Instance get_or_post_dec r : Decision (get_or_post r).
Proof. unfold get_or_post. apply _. Defined.


(** ** Readers and predicates for the further properties *)

(** Printable ASCII: from the space to the tilde. *)
Definition printable (s : str) : Prop := Forall (fun c => 32 <= c <= 126) s.

(** A character that [json.dumps] writes as it is: printable ASCII other
    than the quote and the backslash. *)
Definition plain_char (c : N) : Prop := 32 <= c <= 126 /\ c <> 34 /\ c <> 92.

Definition is_high_surrogate (c : N) : bool := (55296 <=? c) && (c <=? 56319).

Definition is_low_surrogate (c : N) : bool := (56320 <=? c) && (c <=? 57343).

(** A code point that is not a high surrogate.  The values of
    [os.environ] are such: undecodable bytes come as low surrogates. *)
Definition no_high_surrogate (c : N) : Prop :=
  c < 1114112 /\ is_high_surrogate c = false.

(** The code points of a sequence of UTF-16 code units, as [json.loads]
    joins them: a high surrogate followed by a low one is the character
    [0x10000 + (((h - 0xd800) << 10) | (l - 0xdc00))], any other unit
    is itself. *)
Fixpoint utf16_decode (u : list N) : str :=
  match u with
  | [] => []
  | h :: r =>
      match r with
      | [] => [h]
      | l :: r' =>
          if is_high_surrogate h && is_low_surrogate l then
            (65536 + N.lor (N.shiftl (h - 55296) 10) (l - 56320))
            :: utf16_decode r'
          else h :: utf16_decode r
      end
  end.

(** The dictionary of strings that a JSON object denotes, as
    [json.loads] returns it; [None] when the value is not an object of
    strings. *)
Definition json_strings (v : json) : option (list (str * str)) :=
  match v with
  | JObject ms =>
      mapM (fun m =>
              match m.2 with
              | JString u => Some (utf16_decode m.1, utf16_decode u)
              | _ => None
              end) ms
  | _ => None
  end.

(** A response with a body. *)
Definition has_body (o : outcome) : bool :=
  match o with
  | Responded r => match wfile r with [] => false | _ :: _ => true end
  | _ => false
  end.

(** What a request adds to standard output. *)
Definition console_of (r : request) : str :=
  if decide (get_or_post r)
  then log_line (command r) (path r) (client_address r).1 ++ [10]
  else [].

(** ** Sample requests and processes *)

Definition clock_ex (k : nat) : datetime :=
  mk_datetime 2024 3 9 7 5 0 (N.min (1500 + N.of_nat k) 999999).

Definition process_ex : process :=
  mk_process clock_ex 0 (<[py "SF_TAG" := py "v1.2"]> ∅) [].

Definition get_ex : request :=
  mk_request (py "GET / HTTP/1.1") (py "GET") (py "/")
    (py "127.0.0.1", 50000) [] [].

Definition post_ex : request :=
  mk_request (py "POST / HTTP/1.1") (py "POST") (py "/")
    (py "127.0.0.1", 50000) [] [].

Definition options_ex : request :=
  mk_request (py "OPTIONS /x HTTP/1.1") (py "OPTIONS") (py "/x")
    (py "127.0.0.1", 50000) [] [].

Definition post_other_ex : request :=
  mk_request (py "POST /other?x=1 HTTP/1.0") (py "POST") (py "/other?x=1")
    (py "10.0.0.7", 40000)
    [(py "Content-Type", py "text/plain")] [x68; x69].

(** Another process at the same clock reading and with the same
    [SF_TAG]. *)
Definition process_other_ex : process :=
  mk_process (fun k => clock_ex (k - 3)) 3
    (<[py "HOME" := py "/root"]> (<[py "SF_TAG" := py "v1.2"]> ∅))
    (py "Script start" ++ [10]).

(** A process started without [SF_TAG]. *)
Definition process_untagged_ex : process :=
  mk_process clock_ex 0 ∅ [].

Definition delete_ex : request :=
  mk_request (py "DELETE /x HTTP/1.1") (py "DELETE") (py "/x")
    (py "127.0.0.1", 50000) [] [].

(** A local clock that is set back one hour between two readings, as at
    the end of daylight saving time. *)
Definition clock_back (k : nat) : datetime :=
  match k with
  | O => mk_datetime 2024 11 3 1 59 59 500000
  | S _ => mk_datetime 2024 11 3 1 0 0 250000
  end.

(** ** The definitions at work *)

Example isoformat_ex1 :
  isoformat (mk_datetime 2024 3 9 7 5 2 1500) = py "2024-03-09T07:05:02.001500".
Proof. reflexivity. Qed.

Example isoformat_ex2 :
  isoformat (mk_datetime 987 12 31 23 59 59 0) = py "0987-12-31T23:59:59".
Proof. reflexivity. Qed.

Example parse_iso8601_ex1 :
  parse_iso8601 (py "2024-03-09T07:05:02.001500")
  = Some (mk_datetime 2024 3 9 7 5 2 1500).
Proof. reflexivity. Qed.

Example parse_iso8601_ex2 :
  parse_iso8601 (py "2023-02-29T07:05:02") = None.
Proof. reflexivity. Qed.

Example json_dumps_ex1 :
  json_dumps [(py "a", [233; 34; 128512; 10]); (py "b", py "x")]
  = pyq "{'a': '\u00e9\'\ud83d\ude00\n', 'b': 'x'}".
Proof. reflexivity. Qed.

Example json_loads_ex1 :
  json_loads (pyq "{'a': [1, -2.5e+3, true, null, {}], 'b' : 'xA\n\u00e9'}")
  = Some (JObject [(py "a", JArray [JNumber (py "1"); JNumber (py "-2.5e+3");
                                    JBool true; JNull; JObject []]);
                   (py "b", JString [120; 65; 10; 233])]).
Proof. reflexivity. Qed.

Example json_loads_ex2 : json_loads (pyq "{'a': 01}") = None.
Proof. reflexivity. Qed.

Example json_loads_ex3 : json_loads (pyq "{'a': 'x',}") = None.
Proof. reflexivity. Qed.

Example main_startup_ex :
  stdout (main true process_untagged_ex []).1
  = py "Script start" ++ [10] ++ py "Server created" ++ [10] ++
    py "Server listening callback" ++ [10] ++
    py "Server running on 0.0.0.0:3000" ++ [10].
Proof. vm_compute. reflexivity. Qed.

Example handle_get_ex_stdout :
  stdout (handle_one_request get_ex process_ex).1
  = py "Request received: GET / from 127.0.0.1" ++ [10].
Proof. vm_compute. reflexivity. Qed.

Example handle_get_ex_body :
  (o ← responded (handle_one_request get_ex process_ex).2;
   ascii_decode (wfile o))
  = Some (pyq "{'message': 'Hello from python', 'dt': '2024-03-09T07:05:00.001500', 'version': 'v1.2'}").
Proof. vm_compute. reflexivity. Qed.

Example handle_get_ex_dt :
  (o ← responded (handle_one_request get_ex process_ex).2; body_dt o)
  = Some (mk_datetime 2024 3 9 7 5 0 1500).
Proof. vm_compute. reflexivity. Qed.

(** * Properties *)

(** ** Decimal fields *)

Section Decimal.

Lemma fixed_digits_length w n : length (fixed_digits w n) = w.
Proof.
  revert n. induction w as [|w IH]; intros n; simpl; [reflexivity|].
  rewrite length_app, IH. simpl. lia.
Qed.

Lemma repeat_snoc {A} (x : A) j : repeat x j ++ [x] = x :: repeat x j.
Proof. induction j as [|j IH]; simpl; [reflexivity|]. now rewrite IH. Qed.

Lemma fixed_digits_zero j : fixed_digits j 0 = repeat (digit_char 0) j.
Proof.
  induction j as [|j IH]; simpl; [reflexivity|].
  change (0 / 10) with 0. change (0 mod 10) with 0.
  now rewrite IH, repeat_snoc.
Qed.

(** The digits above the [k]-th of a number below [10^k] are zeros. *)
Lemma fixed_digits_pad k : forall j n,
  n < 10 ^ N.of_nat k ->
  fixed_digits (j + k) n = repeat (digit_char 0) j ++ fixed_digits k n.
Proof.
  induction k as [|k IH]; intros j n Hn.
  - simpl in Hn. assert (n = 0) by lia. subst n.
    rewrite Nat.add_0_r, fixed_digits_zero. simpl. now rewrite app_nil_r.
  - rewrite Nat.add_succ_r. simpl. rewrite IH, app_assoc; [reflexivity|].
    rewrite Nat2N.inj_succ, N.pow_succ_r' in Hn.
    apply N.Div0.div_lt_upper_bound. lia.
Qed.

Lemma decimal_aux_fixed f : forall n acc,
  n < 10 ^ N.of_nat (S f) ->
  exists k, (1 <= k)%nat /\ n < 10 ^ N.of_nat k /\
    decimal_aux (S f) n acc = fixed_digits k n ++ acc /\
    (forall w, (1 <= w)%nat -> n < 10 ^ N.of_nat w -> (k <= w)%nat).
Proof.
  induction f as [|f IH]; intros n acc Hn.
  - change (10 ^ N.of_nat 1) with 10 in Hn.
    exists 1%nat. apply N.ltb_lt in Hn as Hb. simpl. rewrite Hb.
    rewrite N.mod_small by lia. repeat split; try lia. 
  - cbn [decimal_aux]. destruct (N.ltb_spec n 10) as [Hlt|Hge].
    + exists 1%nat. simpl. rewrite N.mod_small by lia.
      repeat split; try lia.
    + rewrite Nat2N.inj_succ, N.pow_succ_r' in Hn.
      assert (Hq : n / 10 < 10 ^ N.of_nat (S f))
        by (apply N.Div0.div_lt_upper_bound; lia).
      destruct (IH (n / 10) (digit_char (n mod 10) :: acc) Hq)
        as (k & Hk1 & Hk2 & Hk3 & Hk4).
      exists (S k). split; [lia|]. split; [|split].
      * rewrite Nat2N.inj_succ, N.pow_succ_r'.
        pose proof (N.div_mod n 10 ltac:(lia)).
        pose proof (N.mod_lt n 10 ltac:(lia)). lia.
      * cbn [decimal_aux] in Hk3. rewrite Hk3. simpl.
        now rewrite <- app_assoc.
      * intros w Hw Hnw. destruct w as [|w]; [lia|].
        destruct w as [|w].
        { change (10 ^ N.of_nat 1) with 10 in Hnw. lia. }
        apply le_n_S, Hk4; [lia|].
        rewrite Nat2N.inj_succ, N.pow_succ_r' in Hnw.
        apply N.Div0.div_lt_upper_bound. lia.
Qed.

Lemma decimal_fuel n : n < 10 ^ N.of_nat (S (N.to_nat (N.log2 n))).
Proof.
  rewrite Nat2N.inj_succ, N2Nat.id.
  destruct (N.eq_dec n 0) as [->|Hn]; [reflexivity|].
  destruct (N.log2_spec n ltac:(lia)) as [_ H].
  eapply N.lt_le_trans; [exact H|].
  apply N.pow_le_mono_l. lia.
Qed.

(** Within its width, ["%0wd"] writes exactly [w] digits. *)
Lemma format_0d_fixed w n :
  (1 <= w)%nat -> n < 10 ^ N.of_nat w -> format_0d w n = fixed_digits w n.
Proof.
  intros Hw Hn. unfold format_0d, decimal.
  destruct (decimal_aux_fixed _ n [] (decimal_fuel n))
    as (k & Hk1 & Hk2 & Hk3 & Hk4).
  rewrite Hk3, app_nil_r, fixed_digits_length.
  specialize (Hk4 w Hw Hn).
  replace w with ((w - k) + k)%nat at 2 by lia.
  now rewrite fixed_digits_pad.
Qed.

Lemma digit_val_char d : d < 10 -> digit_val (digit_char d) = Some d.
Proof.
  intros Hd. unfold digit_val, digit_char.
  replace (48 <=? 48 + d) with true by (symmetry; apply N.leb_le; lia).
  replace (48 + d <=? 57) with true by (symmetry; apply N.leb_le; lia).
  simpl. f_equal. lia.
Qed.

Lemma digits_val_app a b : forall acc,
  digits_val acc (a ++ b) = (x ← digits_val acc a; digits_val x b).
Proof.
  induction a as [|c a IH]; intros acc; simpl; [reflexivity|].
  destruct (digit_val c); [apply IH|reflexivity].
Qed.

Lemma digits_val_fixed w : forall n acc,
  digits_val acc (fixed_digits w n)
  = Some (acc * 10 ^ N.of_nat w + n mod 10 ^ N.of_nat w).
Proof.
  induction w as [|w IH]; intros n acc.
  - simpl. f_equal. rewrite N.mod_1_r. lia.
  - cbn [fixed_digits]. rewrite digits_val_app, IH. simpl.
    rewrite digit_val_char by (apply N.mod_lt; lia). f_equal.
    rewrite Nat2N.inj_succ, N.pow_succ_r'.
    rewrite (N.Div0.mod_mul_r n 10). lia.
Qed.

Lemma take_exact_app (l rest : str) :
  take_exact (length l) (l ++ rest) = Some (l, rest).
Proof.
  unfold take_exact.
  replace (length l <=? length (l ++ rest))%nat with true
    by (symmetry; apply Nat.leb_le; rewrite length_app; lia).
  now rewrite take_app_length, drop_app_length.
Qed.

Lemma read_field_fixed w n rest :
  n < 10 ^ N.of_nat w ->
  read_field w (fixed_digits w n ++ rest) = Some (n, rest).
Proof.
  intros Hn. unfold read_field.
  pose proof (take_exact_app (fixed_digits w n) rest) as H.
  rewrite fixed_digits_length in H. rewrite H. simpl.
  rewrite digits_val_fixed. simpl. now rewrite N.mod_small.
Qed.

End Decimal.

(** ** Timestamps *)

Section Timestamps.

Lemma days_in_month_le y m : days_in_month y m <= 31.
Proof.
  unfold days_in_month.
  repeat match goal with |- context [if ?b then _ else _] => destruct b end;
    lia.
Qed.

Lemma datetime_ok_bounds d :
  datetime_ok d = true ->
  year d < 10 ^ N.of_nat 4 /\ month d < 10 ^ N.of_nat 2 /\
  day d < 10 ^ N.of_nat 2 /\ hour d < 10 ^ N.of_nat 2 /\
  minute d < 10 ^ N.of_nat 2 /\ second d < 10 ^ N.of_nat 2 /\
  microsecond d < 10 ^ N.of_nat 6.
Proof.
  unfold datetime_ok. rewrite !andb_true_iff, !N.leb_le, !N.ltb_lt.
  pose proof (days_in_month_le (year d) (month d)).
  change (10 ^ N.of_nat 4) with 10000. change (10 ^ N.of_nat 2) with 100.
  change (10 ^ N.of_nat 6) with 1000000. lia.
Qed.

(** The text of a valid datetime has fixed-width fields. *)
Lemma isoformat_fixed d :
  datetime_ok d = true ->
  isoformat d =
    fixed_digits 4 (year d) ++ 45 :: fixed_digits 2 (month d) ++
    45 :: fixed_digits 2 (day d) ++ 84 :: fixed_digits 2 (hour d) ++
    58 :: fixed_digits 2 (minute d) ++ 58 :: fixed_digits 2 (second d) ++
    (if microsecond d =? 0 then []
     else 46 :: fixed_digits 6 (microsecond d) ++ []).
Proof.
  intros Hok.
  destruct (datetime_ok_bounds d Hok) as (Hy & Hmo & Hd & Hh & Hmi & Hs & Hus).
  unfold isoformat. rewrite !format_0d_fixed by (assumption || lia).
  rewrite app_nil_r. reflexivity.
Qed.

(** Reading back the text of a valid datetime gives the datetime. *)
Lemma parse_iso8601_isoformat d :
  datetime_ok d = true -> parse_iso8601 (isoformat d) = Some d.
Proof.
  intros Hok.
  destruct (datetime_ok_bounds d Hok) as (Hy & Hmo & Hd & Hh & Hmi & Hs & Hus).
  rewrite isoformat_fixed by assumption. unfold parse_iso8601.
  repeat (rewrite read_field_fixed by assumption; cbn [mbind option_bind next_is N.eqb Pos.eqb]).
  destruct (N.eqb_spec (microsecond d) 0) as [E|E].
  - simpl. destruct d; simpl in *; subst. now rewrite Hok.
  - cbn [mbind option_bind next_is N.eqb Pos.eqb].
    rewrite read_field_fixed by assumption. simpl.
    destruct d; simpl in *. now rewrite Hok.
Qed.

End Timestamps.

(** ** JSON text *)

Section JsonStrings.

Lemma lt_16_cases d :
  d < 16 ->
  d = 0 \/ d = 1 \/ d = 2 \/ d = 3 \/ d = 4 \/ d = 5 \/ d = 6 \/ d = 7 \/
  d = 8 \/ d = 9 \/ d = 10 \/ d = 11 \/ d = 12 \/ d = 13 \/ d = 14 \/ d = 15.
Proof. lia. Qed.

Lemma hex_val_char d : d < 16 -> hex_val (hex_char d) = Some d.
Proof.
  intros H. apply lt_16_cases in H.
  repeat (destruct H as [->|H]; [reflexivity|]). now subst.
Qed.

Lemma hex_char_ascii d : d < 16 -> 48 <= hex_char d <= 102.
Proof.
  intros H. apply lt_16_cases in H.
  repeat (destruct H as [->|H]; [vm_compute; split; discriminate|]).
  subst. vm_compute; split; discriminate.
Qed.

Lemma hex_digits n :
  n < 65536 ->
  (n / 4096 mod 16) * 4096 + (n / 256 mod 16) * 256 + (n / 16 mod 16) * 16
  + n mod 16 = n.
Proof.
  intros Hn.
  replace (n / 4096) with (n / 16 / 16 / 16)
    by (rewrite !N.Div0.div_div; reflexivity).
  replace (n / 256) with (n / 16 / 16)
    by (rewrite !N.Div0.div_div; reflexivity).
  pose proof (N.div_mod n 16 ltac:(lia)).
  pose proof (N.div_mod (n / 16) 16 ltac:(lia)).
  pose proof (N.div_mod (n / 16 / 16) 16 ltac:(lia)).
  pose proof (N.mod_lt n 16 ltac:(lia)).
  pose proof (N.mod_lt (n / 16) 16 ltac:(lia)).
  pose proof (N.mod_lt (n / 16 / 16) 16 ltac:(lia)).
  remember (n / 16) as a. remember (a / 16) as b. remember (b / 16) as c.
  remember (n mod 16) as r0. remember (a mod 16) as r1.
  remember (b mod 16) as r2.
  clear Heqa Heqb Heqc Heqr0 Heqr1 Heqr2.
  assert (c < 16) by lia.
  rewrite (N.mod_small c) by assumption. lia.
Qed.

(** Four hexadecimal digits read back to the value they were written
    from. *)
Lemma scan_hex4 n t :
  n < 65536 ->
  scan_string (92 :: 117 :: hex4 n ++ t)
  = match scan_string t with
    | Some (us, rest) => Some (n :: us, rest)
    | None => None
    end.
Proof.
  intros Hn. unfold hex4. cbn [app scan_string N.eqb Pos.eqb].
  unfold hex4_val.
  rewrite !hex_val_char by (apply N.mod_lt; lia).
  cbn [mbind option_bind]. now rewrite hex_digits.
Qed.

Lemma utf16_units c : Forall (fun u => u < 65536) (utf16 c).
Proof.
  unfold utf16. destruct (N.ltb_spec c 65536) as [H|H].
  - repeat constructor. assumption.
  - assert (Hlow : forall x, N.land x 1023 < 1024).
    { intros x. change 1023 with (N.ones 10). rewrite N.land_ones.
      apply N.mod_lt. discriminate. }
    assert (Hlor : forall a x, a < 65536 -> x < 1024 -> N.lor a x < 65536).
    { intros a x Ha Hx.
      destruct (N.eq_dec (N.lor a x) 0) as [->|Hz]; [reflexivity|].
      change 65536 with (2 ^ 16). apply N.log2_lt_pow2; [lia|].
      rewrite N.log2_lor. apply N.max_lub_lt.
      - destruct (N.eq_dec a 0) as [->|Ha0]; [reflexivity|].
        apply N.log2_lt_pow2; [lia|assumption].
      - destruct (N.eq_dec x 0) as [->|Hx0]; [reflexivity|].
        apply N.log2_lt_pow2; [lia|]. change (2 ^ 16) with 65536. lia. }
    repeat constructor; apply Hlor; auto; reflexivity.
Qed.

Lemma scan_units us t :
  Forall (fun u => u < 65536) us ->
  scan_string (flat_map (fun u => py "\u" ++ hex4 u) us ++ t)
  = match scan_string t with
    | Some (vs, rest) => Some (us ++ vs, rest)
    | None => None
    end.
Proof.
  induction 1 as [|u us Hu _ IH].
  - simpl. now destruct (scan_string t) as [[vs rest]|].
  - cbn [flat_map]. rewrite <- app_assoc.
    change (py "\u" ++ hex4 u) with (92 :: 117 :: hex4 u).
    rewrite <- !app_comm_cons, scan_hex4, IH by assumption.
    now destruct (scan_string t) as [[vs rest]|].
Qed.

(** Scanning what [replace] wrote for one character gives back the
    code units of that character. *)
Lemma scan_escape_char c t :
  scan_string (escape_char c ++ t)
  = match scan_string t with
    | Some (us, rest) => Some (utf16 c ++ us, rest)
    | None => None
    end.
Proof.
  unfold escape_char.
  repeat match goal with
         | |- context [if ?x =? ?k then _ else _] =>
             destruct (N.eqb_spec x k) as [->|?];
             [simpl; now destruct (scan_string t) as [[us rest]|] |]
         end.
  destruct ((32 <=? c) && (c <=? 126)) eqn:Hp.
  - apply andb_true_iff in Hp as [Hlo Hhi].
    apply N.leb_le in Hlo. apply N.leb_le in Hhi.
    cbn [app scan_string].
    rewrite (proj2 (N.eqb_neq c 34)), (proj2 (N.eqb_neq c 92)) by assumption.
    rewrite (proj2 (N.ltb_ge c 32)) by assumption.
    unfold utf16. rewrite (proj2 (N.ltb_lt c 65536)) by lia. reflexivity.
  - apply scan_units, utf16_units.
Qed.

Lemma scan_string_escaped s rest :
  scan_string (flat_map escape_char s ++ 34 :: rest)
  = Some (flat_map utf16 s, rest).
Proof.
  induction s as [|c s IH]; [reflexivity|].
  cbn [flat_map]. now rewrite <- app_assoc, scan_escape_char, IH.
Qed.

(** Text in the basic plane is its own sequence of code units. *)
Lemma utf16_bmp s :
  Forall (fun c => c < 65536) s -> flat_map utf16 s = s.
Proof.
  induction 1 as [|c s Hc _ IH]; [reflexivity|].
  cbn [flat_map]. unfold utf16 at 1.
  rewrite (proj2 (N.ltb_lt c 65536)) by assumption. simpl. now rewrite IH.
Qed.

End JsonStrings.

Section JsonText.

Lemma is_ascii_app a b : is_ascii a -> is_ascii b -> is_ascii (a ++ b).
Proof. apply Forall_app_2. Qed.

Lemma is_ascii_py_check (s : str) :
  forallb (fun c => c <? 128) s = true -> is_ascii s.
Proof.
  intros H. apply Forall_forall. intros c Hc%list_elem_of_In.
  rewrite forallb_forall in H. apply N.ltb_lt, H, Hc.
Qed.

Lemma hex4_ascii n : is_ascii (hex4 n).
Proof.
  unfold hex4.
  repeat constructor;
    match goal with
    | |- hex_char ?d < 128 =>
        pose proof (hex_char_ascii d ltac:(apply N.mod_lt; lia)); lia
    end.
Qed.

Lemma escape_char_ascii c : is_ascii (escape_char c).
Proof.
  unfold escape_char.
  repeat match goal with
         | |- context [if ?x =? ?k then _ else _] =>
             destruct (N.eqb_spec x k) as [->|?];
             [now apply is_ascii_py_check |]
         end.
  destruct ((32 <=? c) && (c <=? 126)) eqn:Hp.
  - apply andb_true_iff in Hp as [_ Hhi]. apply N.leb_le in Hhi.
    repeat constructor. lia.
  - induction (utf16 c) as [|u us IH]; [constructor|].
    cbn [flat_map]. apply is_ascii_app; [|exact IH].
    apply is_ascii_app; [now apply is_ascii_py_check | apply hex4_ascii].
Qed.

Lemma encode_basestring_ascii_ascii s : is_ascii (encode_basestring_ascii s).
Proof.
  unfold encode_basestring_ascii.
  apply is_ascii_app; [now apply is_ascii_py_check|].
  apply is_ascii_app; [|now apply is_ascii_py_check].
  induction s as [|c s IH]; [constructor|].
  cbn [flat_map]. apply is_ascii_app; [apply escape_char_ascii | exact IH].
Qed.

Lemma dumps_items_ascii d : is_ascii (dumps_items d).
Proof.
  induction d as [|[k v] d IH]; [constructor|].
  cbn [dumps_items].
  apply is_ascii_app; [apply encode_basestring_ascii_ascii|].
  apply is_ascii_app; [now apply is_ascii_py_check|].
  apply is_ascii_app; [apply encode_basestring_ascii_ascii|].
  destruct d; [constructor|].
  apply is_ascii_app; [now apply is_ascii_py_check | exact IH].
Qed.

(** [json.dumps] writes ASCII only. *)
Lemma json_dumps_ascii d : is_ascii (json_dumps d).
Proof.
  unfold json_dumps.
  apply is_ascii_app; [now apply is_ascii_py_check|].
  apply is_ascii_app; [apply dumps_items_ascii|].
  now apply is_ascii_py_check.
Qed.

Lemma to_N_byte_of_N c : c < 256 -> Byte.to_N (byte_of_N c) = c.
Proof.
  intros Hc. unfold byte_of_N. rewrite N.mod_small by assumption.
  destruct (Byte.of_N c) as [b|] eqn:E.
  - now apply Byte.to_of_N.
  - apply Byte.of_N_None_iff in E. lia.
Qed.

(** ASCII text encodes to UTF-8 without an error, one byte per
    character. *)
Lemma utf8_encode_ascii s :
  is_ascii s -> utf8_encode s = Some (map byte_of_N s).
Proof.
  induction 1 as [|c s Hc _ IH]; [reflexivity|].
  cbn [utf8_encode map]. unfold utf8_encode_char.
  rewrite (proj2 (N.ltb_lt c 128)) by assumption. now rewrite IH.
Qed.

Lemma ascii_decode_encode s :
  is_ascii s -> ascii_decode (map byte_of_N s) = Some s.
Proof.
  induction 1 as [|c s Hc _ IH]; [reflexivity|].
  cbn [ascii_decode map]. rewrite to_N_byte_of_N by lia.
  rewrite (proj2 (N.ltb_lt c 128)) by assumption. now rewrite IH.
Qed.

Lemma encode_basestring_ascii_app s t :
  encode_basestring_ascii s ++ t = 34 :: flat_map escape_char s ++ 34 :: t.
Proof.
  unfold encode_basestring_ascii. simpl. now rewrite <- app_assoc.
Qed.

Lemma dumps_items_cons_app k v d t :
  dumps_items ((k, v) :: d) ++ t
  = 34 :: flat_map escape_char k ++ 34 :: 58 :: 32 ::
    34 :: flat_map escape_char v ++ 34 ::
    match d with
    | [] => t
    | _ :: _ => 44 :: 32 :: dumps_items d ++ t
    end.
Proof.
  cbn [dumps_items].
  change (py ": ") with [58; 32]. change (py ", ") with [44; 32].
  destruct d;
    rewrite <- ?app_assoc, !encode_basestring_ascii_app;
    cbn [app]; rewrite <- ?app_assoc; reflexivity.
Qed.

Lemma parse_members_space f s :
  parse_members f (32 :: s) = parse_members f s.
Proof. destruct f; reflexivity. Qed.

Lemma parse_value_string f v t :
  (1 <= f)%nat ->
  parse_value f (32 :: 34 :: flat_map escape_char v ++ 34 :: t)
  = Some (JString (flat_map utf16 v), t).
Proof.
  intros Hf. destruct f as [|f]; [lia|].
  cbn [parse_value skip_ws N.eqb Pos.eqb orb].
  now rewrite scan_string_escaped.
Qed.

Lemma parse_members_dumps d : forall f rest,
  d <> [] -> (length d < f)%nat ->
  parse_members f (dumps_items d ++ 125 :: rest)
  = Some (map (fun kv => (flat_map utf16 kv.1, JString (flat_map utf16 kv.2))) d,
          rest).
Proof.
  induction d as [|[k v] d IH]; intros f rest Hne Hf; [congruence|].
  destruct f as [|f]; [simpl in Hf; lia|].
  rewrite dumps_items_cons_app.
  cbn [parse_members skip_ws next_is N.eqb Pos.eqb orb mbind option_bind].
  rewrite scan_string_escaped.
  cbn [skip_ws next_is N.eqb Pos.eqb orb mbind option_bind].
  rewrite parse_value_string by (simpl in Hf; lia).
  cbn [mbind option_bind].
  destruct d as [|m d]; [reflexivity|].
  cbn [skip_ws N.eqb Pos.eqb orb mbind option_bind].
  rewrite parse_members_space, IH by (simpl in *; (congruence || lia)).
  reflexivity.
Qed.

Lemma dumps_items_length d : (length d <= length (dumps_items d))%nat.
Proof.
  induction d as [|[k v] d IH]; [reflexivity|].
  cbn [dumps_items]. unfold encode_basestring_ascii at 1.
  destruct d as [|m d]; rewrite !length_app; simpl in *; lia.
Qed.

(** Reading the text that [json.dumps] wrote for a dictionary gives an
    object with the members of the dictionary, in order. *)
Lemma json_loads_dumps d : json_loads (json_dumps d) = Some (json_of_dict d).
Proof.
  unfold json_loads, json_dumps, json_of_dict.
  change (py "{" ++ dumps_items d ++ py "}")
    with (123 :: dumps_items d ++ [125]).
  destruct d as [|[k v] d]; [reflexivity|].
  cbn [parse_value skip_ws N.eqb Pos.eqb orb].
  rewrite (dumps_items_cons_app k v d [125]) at 1.
  cbn [skip_ws next_is N.eqb Pos.eqb orb].
  rewrite parse_members_dumps.
  - reflexivity.
  - congruence.
  - pose proof (dumps_items_length ((k, v) :: d)).
    cbn [length]. rewrite length_app. simpl in *. lia.
Qed.

End JsonText.

(** ** The methods of the handler *)

Section Handler.

Lemma handle_request_run r p :
  handle_request r (mk_state no_response p no_base)
  = (mk_state (json_response (clock p (clock_reads p)) (version_in p))
       (process_after r p) (json_base r), Ok tt).
Proof.
  unfold handle_request.
  cbv [mbind M_bind datetime_now os_environ_get self print update_process
       send_response send_header send_cors_headers end_headers
       update_response encode_utf8 wfile_write write_stdout
       log_request log_message buffer_header update_base
       self_response proc self_base no_response no_base
       stderr_log headers_buffer
       status header_lines headers_ended wfile
       clock clock_reads environ stdout app].
  rewrite utf8_encode_ascii by apply json_dumps_ascii.
  reflexivity.
Qed.

Lemma do_OPTIONS_run r p :
  do_OPTIONS r (mk_state no_response p no_base)
  = (mk_state options_response p (options_base r), Ok tt).
Proof. reflexivity. Qed.

Lemma do_name_eq (a c : str) :
  bool_decide (py "do_" ++ a = py "do_" ++ c) = bool_decide (a = c).
Proof. apply bool_decide_ext. split; [apply app_inv_head | congruence]. Qed.

(** Looking up ["do_" + command] finds one of the three [do_*]
    methods of the class, or nothing. *)
Lemma getattr_do c :
  getattr (py "do_" ++ c)
  = if bool_decide (py "GET" = c) then Some do_GET
    else if bool_decide (py "POST" = c) then Some do_POST
    else if bool_decide (py "OPTIONS" = c) then Some do_OPTIONS
    else None.
Proof.
  unfold getattr, class_dict. cbn [find fst].
  change (py "do_GET") with (py "do_" ++ py "GET").
  change (py "do_POST") with (py "do_" ++ py "POST").
  change (py "do_OPTIONS") with (py "do_" ++ py "OPTIONS").
  rewrite !do_name_eq.
  repeat (case_bool_decide; [reflexivity|]).
  rewrite !bool_decide_eq_false_2 by (intros [=]). reflexivity.
Qed.

Lemma handle_get_post r p :
  command r = py "GET" \/ command r = py "POST" ->
  handle_one_request r p
  = (process_after r p,
     Responded (json_response (clock p (clock_reads p)) (version_in p))).
Proof.
  intros Hc. unfold handle_one_request. rewrite getattr_do.
  destruct Hc as [-> | ->]; simpl bool_decide; cbv iota;
    unfold do_GET, do_POST; now rewrite handle_request_run.
Qed.

Lemma handle_options r p :
  command r = py "OPTIONS" ->
  handle_one_request r p = (p, Responded options_response).
Proof.
  intros Hc. unfold handle_one_request. rewrite getattr_do, Hc.
  reflexivity.
Qed.

Lemma handle_other r p :
  command r <> py "GET" -> command r <> py "POST" ->
  command r <> py "OPTIONS" ->
  handle_one_request r p = (p, SendError 501).
Proof.
  intros H1 H2 H3. unfold handle_one_request. rewrite getattr_do.
  now rewrite !bool_decide_eq_false_2 by congruence.
Qed.

(** Every request falls in one of the three cases. *)
Lemma handle_cases r p :
  ((command r = py "GET" \/ command r = py "POST") /\
    (handle_one_request r p
     = (process_after r p,
        Responded (json_response (clock p (clock_reads p)) (version_in p)))))
  \/ (command r = py "OPTIONS" /\
      (handle_one_request r p = (p, Responded options_response)))
  \/ ((command r <> py "GET" /\ command r <> py "POST" /\
       command r <> py "OPTIONS") /\
      (handle_one_request r p = (p, SendError 501))).
Proof.
  destruct (decide (command r = py "GET")) as [Hg|Hg];
    [left; split; [tauto | apply handle_get_post; tauto]|].
  destruct (decide (command r = py "POST")) as [Hp|Hp];
    [left; split; [tauto | apply handle_get_post; tauto]|].
  destruct (decide (command r = py "OPTIONS")) as [Ho|Ho];
    [right; left; split; [assumption | now apply handle_options]|].
  right; right. split; [tauto | now apply handle_other].
Qed.

(** The JSON body of the response of [handle_request]. *)
Lemma json_response_body dt version :
  body_json (json_response dt version)
  = Some (json_of_dict (response_data dt version)).
Proof.
  unfold body_json, json_response. cbn [wfile].
  rewrite ascii_decode_encode by apply json_dumps_ascii.
  cbn [mbind option_bind]. apply json_loads_dumps.
Qed.

Lemma options_response_body : body_json options_response = None.
Proof. reflexivity. Qed.

End Handler.

(** ** The fields of the JSON response *)

Section ResponseFields.

Lemma decimal_aux_ascii f : forall n acc,
  is_ascii acc -> is_ascii (decimal_aux f n acc).
Proof.
  assert (Hd : forall d, d < 10 -> digit_char d < 128)
    by (unfold digit_char; lia).
  induction f as [|f IH]; intros n acc Hacc; [exact Hacc|].
  cbn [decimal_aux]. destruct (N.ltb_spec n 10).
  - constructor; [now apply Hd | exact Hacc].
  - apply IH. constructor; [|exact Hacc].
    apply Hd, N.mod_lt. discriminate.
Qed.

Lemma format_0d_ascii w n : is_ascii (format_0d w n).
Proof.
  unfold format_0d. apply is_ascii_app.
  - apply Forall_forall. intros c Hc%list_elem_of_In.
    apply repeat_spec in Hc. subst c. reflexivity.
  - apply decimal_aux_ascii. constructor.
Qed.

(** [isoformat] writes ASCII only. *)
Lemma isoformat_ascii d : is_ascii (isoformat d).
Proof.
  unfold isoformat.
  repeat (apply is_ascii_app;
          [first [apply format_0d_ascii | now apply is_ascii_py_check]|]).
  destruct (microsecond d =? 0); [constructor|].
  apply is_ascii_app; [now apply is_ascii_py_check | apply format_0d_ascii].
Qed.

Lemma utf16_ascii s : is_ascii s -> flat_map utf16 s = s.
Proof.
  intros H. apply utf16_bmp. eapply Forall_impl; [exact H|].
  cbn. intros c Hc. lia.
Qed.

Lemma json_response_message dt version :
  body_field "message" (json_response dt version)
  = Some (py "Hello from python").
Proof.
  unfold body_field. rewrite json_response_body. unfold response_data.
  generalize (isoformat dt). intros s. reflexivity.
Qed.

Lemma json_response_dt dt version :
  body_field "dt" (json_response dt version) = Some (isoformat dt).
Proof.
  unfold body_field. rewrite json_response_body. unfold response_data.
  rewrite <- (utf16_ascii (isoformat dt)) at 2 by apply isoformat_ascii.
  generalize (isoformat dt). intros s. reflexivity.
Qed.

Lemma json_response_version dt version :
  body_version (json_response dt version) = Some (flat_map utf16 version).
Proof.
  unfold body_version, body_field. rewrite json_response_body.
  unfold response_data. generalize (isoformat dt). intros s. reflexivity.
Qed.

Lemma json_response_keys dt version :
  json_keys (json_of_dict (response_data dt version))
  = Some [py "message"; py "dt"; py "version"].
Proof. reflexivity. Qed.

Lemma json_response_timestamp dt version :
  datetime_ok dt = true -> body_dt (json_response dt version) = Some dt.
Proof.
  intros Hok. unfold body_dt. rewrite json_response_dt.
  cbn [mbind option_bind]. now apply parse_iso8601_isoformat.
Qed.

Lemma json_response_cors dt version : cors_headers (json_response dt version).
Proof. unfold cors_headers, has_header. cbn. tauto. Qed.

Lemma options_response_cors : cors_headers options_response.
Proof. unfold cors_headers, has_header. cbn. tauto. Qed.

End ResponseFields.

(** ** Runs of the server *)

Section Runs.

Lemma serve_forever_cons p r reqs :
  serve_forever p (r :: reqs)
  = ((serve_forever (handle_one_request r p).1 reqs).1,
     (handle_one_request r p).2
     :: (serve_forever (handle_one_request r p).1 reqs).2).
Proof.
  cbn [serve_forever]. destruct (handle_one_request r p) as [p1 o].
  cbn [fst snd]. now destruct (serve_forever p1 reqs).
Qed.

Lemma not_get_or_post_options r : command r = py "OPTIONS" -> ~ get_or_post r.
Proof. intros H [E|E]; rewrite H in E; discriminate E. Qed.

(** A run leaves the clock and the environment as they were, and
    reads the clock once per GET or POST request. *)
Lemma serve_forever_process reqs : forall p,
  clock (serve_forever p reqs).1 = clock p /\
  environ (serve_forever p reqs).1 = environ p /\
  clock_reads (serve_forever p reqs).1
  = (clock_reads p + length (filter get_or_post reqs))%nat.
Proof.
  induction reqs as [|r reqs IH]; intros p.
  - cbn. repeat split; lia.
  - rewrite serve_forever_cons. cbn [fst].
    destruct (handle_cases r p) as [[Hc E]|[[Hc E]|[Hc E]]];
      rewrite E; cbn [fst]; destruct (IH (handle_one_request r p).1)
        as (IH1 & IH2 & IH3); rewrite E in IH1, IH2, IH3; cbn [fst] in *;
      rewrite IH1, IH2, IH3.
    + rewrite filter_cons_True by exact Hc. cbn. repeat split; lia.
    + rewrite filter_cons_False by now apply not_get_or_post_options.
      repeat split; lia.
    + rewrite filter_cons_False by (unfold get_or_post; tauto).
      repeat split; lia.
Qed.

(** The timestamps of a run are the successive readings of the
    clock, one per GET or POST request. *)
Lemma timestamps_serve_forever reqs : forall p,
  (forall k, datetime_ok (clock p k) = true) ->
  timestamps (serve_forever p reqs).2
  = map (clock p) (seq (clock_reads p) (length (filter get_or_post reqs))).
Proof.
  induction reqs as [|r reqs IH]; intros p Hok; [reflexivity|].
  rewrite serve_forever_cons. cbn [snd]. unfold timestamps in *.
  cbn [omap list_omap].
  destruct (handle_cases r p) as [[Hc E]|[[Hc E]|[Hc E]]];
    rewrite E; cbn [fst snd responded mbind option_bind].
  - rewrite json_response_timestamp by apply Hok.
    rewrite filter_cons_True by exact Hc.
    rewrite (IH (process_after r p)) by exact Hok. reflexivity.
  - rewrite filter_cons_False by now apply not_get_or_post_options.
    change (body_dt options_response) with (@None datetime).
    now rewrite IH.
  - rewrite filter_cons_False by (unfold get_or_post; tauto).
    now rewrite IH.
Qed.

(** The versions of a run are the value read from the environment the
    run started with. *)
Lemma versions_serve_forever reqs : forall p,
  versions (serve_forever p reqs).2
  = replicate (length (filter get_or_post reqs))
      (flat_map utf16 (version_in p)).
Proof.
  induction reqs as [|r reqs IH]; intros p; [reflexivity|].
  rewrite serve_forever_cons. cbn [snd]. unfold versions in *.
  cbn [omap list_omap].
  destruct (handle_cases r p) as [[Hc E]|[[Hc E]|[Hc E]]];
    rewrite E; cbn [fst snd responded mbind option_bind].
  - rewrite json_response_version.
    rewrite filter_cons_True by exact Hc.
    rewrite (IH (process_after r p)). reflexivity.
  - rewrite filter_cons_False by now apply not_get_or_post_options.
    change (body_version options_response) with (@None (list N)).
    now rewrite IH.
  - rewrite filter_cons_False by (unfold get_or_post; tauto).
    now rewrite IH.
Qed.

Lemma count_lines_app a b :
  count_lines (a ++ b) = (count_lines a + count_lines b)%nat.
Proof. unfold count_lines. now rewrite filter_app, length_app. Qed.

Lemma count_lines_none s : ~ In 10 s -> count_lines s = 0%nat.
Proof.
  unfold count_lines. induction s as [|c s IH]; intros H; [reflexivity|].
  rewrite filter_cons_False by (intros ->; apply H; now left).
  apply IH. intros Hin. apply H. now right.
Qed.

Lemma clock_ex_ok k : datetime_ok (clock_ex k) = true.
Proof.
  unfold datetime_ok, clock_ex. cbn.
  apply N.ltb_lt. lia.
Qed.

Lemma clock_ex_monotone i j :
  (i <= j)%nat -> datetime_leb (clock_ex i) (clock_ex j) = true.
Proof.
  intros Hij. unfold datetime_leb, clock_ex. cbn.
  destruct (N.ltb_spec (N.min (1500 + N.of_nat i) 999999)
              (N.min (1500 + N.of_nat j) 999999)); [reflexivity|].
  replace (N.min (1500 + N.of_nat i) 999999)
    with (N.min (1500 + N.of_nat j) 999999) by lia.
  now rewrite N.eqb_refl.
Qed.

Lemma clock_back_ok k : datetime_ok (clock_back k) = true.
Proof. destruct k; reflexivity. Qed.

End Runs.

(** ** The base class around the methods *)

Section BaseClass.

Lemma handle_base_get_post r p :
  command r = py "GET" \/ command r = py "POST" ->
  handle_one_request_base r p = Some (json_base r).
Proof.
  intros Hc. unfold handle_one_request_base. rewrite getattr_do.
  destruct Hc as [-> | ->]; simpl bool_decide; cbv iota;
    cbn [mbind option_bind]; unfold do_GET, do_POST;
    now rewrite handle_request_run.
Qed.

Lemma handle_base_options r p :
  command r = py "OPTIONS" ->
  handle_one_request_base r p = Some (options_base r).
Proof.
  intros Hc. unfold handle_one_request_base. rewrite getattr_do, Hc.
  simpl bool_decide. cbv iota. cbn [mbind option_bind].
  now rewrite do_OPTIONS_run.
Qed.

Lemma handle_base_other r p :
  command r <> py "GET" -> command r <> py "POST" ->
  command r <> py "OPTIONS" ->
  handle_one_request_base r p = None.
Proof.
  intros H1 H2 H3. unfold handle_one_request_base. rewrite getattr_do.
  now rewrite !bool_decide_eq_false_2 by congruence.
Qed.

Lemma access_entry_200 r :
  access_entry r 200
  = mk_log (client_address r).1 ([34] ++ requestline r ++ [34] ++ py " 200 -").
Proof.
  unfold access_entry.
  assert (E : decimal 200 = py "200") by (vm_compute; reflexivity).
  rewrite E. reflexivity.
Qed.

(** The escaped message holds no newline, whatever the message. *)
Lemma count_lines_log_escape s :
  count_lines (flat_map log_escape_char s) = 0%nat.
Proof.
  assert (Hhex : forall c, ~ In 10 ([92; 120] ++ hex2 c)).
  { intros c. unfold hex2.
    pose proof (hex_char_ascii (c / 16 mod 16) ltac:(apply N.mod_lt; lia))
      as Hx.
    pose proof (hex_char_ascii (c mod 16) ltac:(apply N.mod_lt; lia)) as Hy.
    revert Hx Hy.
    generalize (hex_char (c / 16 mod 16)) (hex_char (c mod 16)).
    intros x y Hx Hy. cbn. intros [H|[H|[H|[H|[]]]]]; try discriminate H; lia. }
  induction s as [|c s IH]; [reflexivity|].
  cbn [flat_map]. rewrite count_lines_app, IH, Nat.add_0_r.
  apply count_lines_none. unfold log_escape_char.
  destruct (N.eqb_spec c 92) as [->|H92];
    [cbn; intuition discriminate|].
  destruct (N.ltb_spec c 32) as [Hlt|Hge]; cbn [orb]; [apply Hhex|].
  destruct ((127 <=? c) && (c <? 160)); [apply Hhex|].
  cbn. intros [H|[]]. lia.
Qed.

(** A call of [log_message] writes exactly one line. *)
Lemma count_lines_stderr_line date e :
  ~ In 10 (log_address e) -> ~ In 10 date ->
  count_lines (stderr_line date e) = 1%nat.
Proof.
  intros Ha Hd. unfold stderr_line. rewrite !count_lines_app.
  rewrite (count_lines_none (log_address e)), (count_lines_none date)
    by assumption.
  rewrite count_lines_log_escape.
  assert (E1 : count_lines (py " - - [") = 0%nat) by (vm_compute; reflexivity).
  assert (E2 : count_lines (py "] ") = 0%nat) by (vm_compute; reflexivity).
  assert (E3 : count_lines [10] = 1%nat) by (vm_compute; reflexivity).
  rewrite E1, E2, E3. reflexivity.
Qed.

Lemma count_lines_request_line c pa ip :
  ~ In 10 c -> ~ In 10 pa -> ~ In 10 ip ->
  count_lines (log_line c pa ip ++ [10]) = 1%nat.
Proof.
  intros Hc Hp Hi. unfold log_line. rewrite !count_lines_app.
  rewrite (count_lines_none c), (count_lines_none pa), (count_lines_none ip)
    by assumption.
  assert (E1 : count_lines (py "Request received: ") = 0%nat)
    by (vm_compute; reflexivity).
  assert (E2 : count_lines (py " ") = 0%nat) by (vm_compute; reflexivity).
  assert (E3 : count_lines (py " from ") = 0%nat)
    by (vm_compute; reflexivity).
  assert (E4 : count_lines [10] = 1%nat) by (vm_compute; reflexivity).
  rewrite E1, E2, E3, E4. reflexivity.
Qed.

End BaseClass.

(** * The claims of the specification *)

(** C1. For every GET or POST request, on any path, the handler responds
    with status 200, a [Content-Type: application/json] header, and a
    body that is valid JSON: an object with exactly the three keys
    [message], [dt] and [version], in that order.  The handler does not
    raise. *)
Theorem get_post_json_response (r : request) (p : process) :
  command r = py "GET" \/ command r = py "POST" ->
  exists o v,
    (handle_one_request r p).2 = Responded o /\
    status o = Some 200 /\
    has_header "Content-Type" "application/json" o /\
    headers_ended o = true /\
    body_json o = Some v /\
    json_keys v = Some [py "message"; py "dt"; py "version"].
Proof.
  intros Hc. rewrite handle_get_post by exact Hc.
  eexists _, _. split; [reflexivity|].
  split; [reflexivity|]. split; [now left|]. split; [reflexivity|].
  split; [apply json_response_body | apply json_response_keys].
Qed.

Lemma get_post_json_response_witness :
  (command get_ex = py "GET" \/ command get_ex = py "POST") /\
  exists o v,
    (handle_one_request get_ex process_ex).2 = Responded o /\
    status o = Some 200 /\
    has_header "Content-Type" "application/json" o /\
    headers_ended o = true /\
    body_json o = Some v /\
    json_keys v = Some [py "message"; py "dt"; py "version"].
Proof.
  split; [left; reflexivity|].
  apply (get_post_json_response get_ex process_ex). left; reflexivity.
Defined.

(** C2, as the code has it.  The [version] member of the body is the
    value of [SF_TAG] in [os.environ] as it is when the request is
    handled (as the UTF-16 code units by which JSON text denotes a
    string), and ["latest"] when the variable is not there.  The handler
    never changes the environment, so all the responses of a run carry
    the value the run started with; a change of [os.environ] between two
    requests shows in the later response. *)
Theorem version_read_per_request (r : request) (p : process) :
  command r = py "GET" \/ command r = py "POST" ->
  (exists o,
     (handle_one_request r p).2 = Responded o /\
     body_version o
     = Some (flat_map utf16
               match environ p !! py "SF_TAG" with
               | Some v => v
               | None => py "latest"
               end)) /\
  environ (handle_one_request r p).1 = environ p /\
  (forall reqs,
     environ (serve_forever p reqs).1 = environ p /\
     versions (serve_forever p reqs).2
     = replicate (length (filter get_or_post reqs))
         (flat_map utf16
            match environ p !! py "SF_TAG" with
            | Some v => v
            | None => py "latest"
            end)) /\
  (forall v,
     exists o,
       (handle_one_request r (os_environ_set (py "SF_TAG") v p)).2
       = Responded o /\
       body_version o = Some (flat_map utf16 v)).
Proof.
  intros Hc.
  assert (Hv : forall q, version_in q
               = match environ q !! py "SF_TAG" with
                 | Some v => v
                 | None => py "latest"
                 end)
    by (intros q; unfold version_in; now destruct (environ q !! py "SF_TAG")).
  repeat split.
  - rewrite handle_get_post by exact Hc. eexists. split; [reflexivity|].
    now rewrite json_response_version, Hv.
  - now rewrite handle_get_post by exact Hc.
  - apply serve_forever_process.
  - now rewrite versions_serve_forever, Hv.
  - intros v. rewrite handle_get_post by exact Hc.
    eexists. split; [reflexivity|].
    rewrite json_response_version. unfold version_in, os_environ_set.
    cbn [environ]. now rewrite lookup_insert_eq.
Qed.

Lemma version_read_per_request_witness :
  (command get_ex = py "GET" \/ command get_ex = py "POST") /\
  exists o,
    (handle_one_request get_ex process_ex).2 = Responded o /\
    body_version o = Some (py "v1.2").
Proof.
  split; [left; reflexivity|].
  destruct (version_read_per_request get_ex process_ex) as [[o [Ho Hv]] _];
    [left; reflexivity|].
  exists o. split; [exact Ho|]. rewrite Hv. vm_compute. reflexivity.
Defined.

(** C2, as the specification states it, fails: a process started
    without [SF_TAG] answers ["latest"]; once [os.environ["SF_TAG"]] is
    set to ["v2"], the same process answers ["v2"], which is not the
    value at the start of the process. *)
Lemma version_follows_changed_environment :
  let p0 := process_untagged_ex in
  let run1 := serve_forever p0 [get_ex] in
  let run2 := serve_forever (os_environ_set (py "SF_TAG") (py "v2") run1.1)
                [get_ex] in
  environ p0 !! py "SF_TAG" = None /\
  versions run1.2 = [py "latest"] /\
  versions run2.2 = [py "v2"] /\
  versions run2.2 <> [py "latest"].
Proof.
  vm_compute. repeat split; intros [=].
Qed.

(** C3. For every OPTIONS request, on any path, the handler responds
    with status 200, an empty body and the three CORS headers. *)
Theorem options_preflight_response (r : request) (p : process) :
  command r = py "OPTIONS" ->
  exists o,
    (handle_one_request r p).2 = Responded o /\
    status o = Some 200 /\
    wfile o = [] /\
    headers_ended o = true /\
    has_header "Access-Control-Allow-Origin" "*" o /\
    has_header "Access-Control-Allow-Methods" "GET, POST, OPTIONS" o /\
    has_header "Access-Control-Allow-Headers" "Content-Type" o.
Proof.
  intros Hc. rewrite handle_options by exact Hc.
  exists options_response. repeat split; try reflexivity;
    apply options_response_cors.
Qed.

Lemma options_preflight_response_witness :
  command options_ex = py "OPTIONS" /\
  exists o,
    (handle_one_request options_ex process_ex).2 = Responded o /\
    status o = Some 200 /\
    wfile o = [] /\
    headers_ended o = true /\
    has_header "Access-Control-Allow-Origin" "*" o /\
    has_header "Access-Control-Allow-Methods" "GET, POST, OPTIONS" o /\
    has_header "Access-Control-Allow-Headers" "Content-Type" o.
Proof.
  split; [reflexivity|].
  apply (options_preflight_response options_ex process_ex). reflexivity.
Defined.

(** C4. The response of the handler to a request of each handled method
    (GET, POST, OPTIONS) includes the headers
    [Access-Control-Allow-Origin: *],
    [Access-Control-Allow-Methods: GET, POST, OPTIONS] and
    [Access-Control-Allow-Headers: Content-Type], and the handler ends
    the headers, so that they leave the buffer. *)
Theorem cors_headers_on_every_response (r : request) (p : process) :
  command r = py "GET" \/ command r = py "POST" \/ command r = py "OPTIONS" ->
  exists o,
    (handle_one_request r p).2 = Responded o /\
    In (py "Access-Control-Allow-Origin", py "*") (header_lines o) /\
    In (py "Access-Control-Allow-Methods", py "GET, POST, OPTIONS")
      (header_lines o) /\
    In (py "Access-Control-Allow-Headers", py "Content-Type") (header_lines o) /\
    headers_ended o = true.
Proof.
  intros [Hc|[Hc|Hc]].
  - rewrite handle_get_post by tauto. eexists. split; [reflexivity|].
    pose proof (json_response_cors (clock p (clock_reads p)) (version_in p))
      as (H1 & H2 & H3).
    repeat split; assumption.
  - rewrite handle_get_post by tauto. eexists. split; [reflexivity|].
    pose proof (json_response_cors (clock p (clock_reads p)) (version_in p))
      as (H1 & H2 & H3).
    repeat split; assumption.
  - rewrite handle_options by exact Hc. eexists. split; [reflexivity|].
    pose proof options_response_cors as (H1 & H2 & H3).
    repeat split; assumption.
Qed.

Lemma cors_headers_on_every_response_witness :
  (command post_ex = py "GET" \/ command post_ex = py "POST" \/
   command post_ex = py "OPTIONS") /\
  exists o,
    (handle_one_request post_ex process_ex).2 = Responded o /\
    In (py "Access-Control-Allow-Origin", py "*") (header_lines o) /\
    In (py "Access-Control-Allow-Methods", py "GET, POST, OPTIONS")
      (header_lines o) /\
    In (py "Access-Control-Allow-Headers", py "Content-Type") (header_lines o) /\
    headers_ended o = true.
Proof.
  split; [right; left; reflexivity|].
  apply (cors_headers_on_every_response post_ex process_ex).
  right; left; reflexivity.
Defined.

(** C5, as the code has it.  [do_GET] and [do_POST] are the same code.
    For the same path, client, clock reading and environment a GET and a
    POST request get the same status, headers and body, and each prints
    a line of the same format that names its own method. *)
Theorem get_post_same_response (r1 r2 : request) (p : process) :
  command r1 = py "GET" ->
  command r2 = py "POST" ->
  path r1 = path r2 ->
  client_address r1 = client_address r2 ->
  do_GET = do_POST /\
  (exists o,
     (handle_one_request r1 p).2 = Responded o /\
     (handle_one_request r2 p).2 = Responded o) /\
  stdout (handle_one_request r1 p).1
  = stdout p ++
    log_line (py "GET") (path r1) (client_address r1).1 ++ [10] /\
  stdout (handle_one_request r2 p).1
  = stdout p ++
    log_line (py "POST") (path r1) (client_address r1).1 ++ [10].
Proof.
  intros H1 H2 Hp Ha.
  rewrite (handle_get_post r1) by tauto.
  rewrite (handle_get_post r2) by tauto.
  split; [unfold do_GET, do_POST; reflexivity|].
  split; [eexists; split; reflexivity|].
  unfold process_after. cbn [fst stdout].
  now rewrite H1, H2, Hp, Ha.
Qed.

Lemma get_post_same_response_witness :
  command get_ex = py "GET" /\
  command post_ex = py "POST" /\
  path get_ex = path post_ex /\
  client_address get_ex = client_address post_ex /\
  (handle_one_request get_ex process_ex).2
  = (handle_one_request post_ex process_ex).2.
Proof.
  repeat (split; [reflexivity|]).
  destruct (get_post_same_response get_ex post_ex process_ex
              eq_refl eq_refl eq_refl eq_refl)
    as (_ & (o & Ho1 & Ho2) & _).
  now rewrite Ho1, Ho2.
Defined.

(** C5, as the specification states it, fails on the log line: for the
    same path, client, clock reading and environment the line of a GET
    request and the line of a POST request differ. *)
Lemma get_post_log_lines_differ :
  path get_ex = path post_ex /\
  client_address get_ex = client_address post_ex /\
  stdout (handle_one_request get_ex process_ex).1
  = py "Request received: GET / from 127.0.0.1" ++ [10] /\
  stdout (handle_one_request post_ex process_ex).1
  = py "Request received: POST / from 127.0.0.1" ++ [10] /\
  stdout (handle_one_request get_ex process_ex).1
  <> stdout (handle_one_request post_ex process_ex).1.
Proof.
  vm_compute. repeat split. intros [=].
Qed.

(** C6, as the code has it.  Every GET or POST request reads the clock
    anew: its [dt] is the ISO-8601 text of the reading taken while the
    request is handled, it reads back as that very timestamp, and the
    next request takes the next reading.  Over a run the timestamps are
    the successive readings of the local wall clock ([datetime.now()]),
    so they are non-decreasing whenever those readings are. *)
Theorem dt_fresh_per_request (p : process) :
  (forall k, datetime_ok (clock p k) = true) ->
  (forall r,
     command r = py "GET" \/ command r = py "POST" ->
     exists o,
       (handle_one_request r p).2 = Responded o /\
       body_field "dt" o = Some (isoformat (clock p (clock_reads p))) /\
       body_dt o = Some (clock p (clock_reads p)) /\
       clock_reads (handle_one_request r p).1 = S (clock_reads p)) /\
  (forall reqs,
     timestamps (serve_forever p reqs).2
     = map (clock p)
         (seq (clock_reads p) (length (filter get_or_post reqs)))) /\
  ((forall i j, (i <= j)%nat -> datetime_leb (clock p i) (clock p j) = true) ->
   forall reqs i j d1 d2,
     (i <= j)%nat ->
     timestamps (serve_forever p reqs).2 !! i = Some d1 ->
     timestamps (serve_forever p reqs).2 !! j = Some d2 ->
     datetime_leb d1 d2 = true).
Proof.
  intros Hok. split; [|split].
  - intros r Hc. rewrite handle_get_post by exact Hc.
    eexists. split; [reflexivity|].
    rewrite json_response_dt, json_response_timestamp by apply Hok.
    repeat split.
  - intros reqs. now apply timestamps_serve_forever.
  - intros Hmono reqs i j d1 d2 Hij H1 H2.
    rewrite timestamps_serve_forever in H1, H2 by exact Hok.
    rewrite list_lookup_fmap in H1, H2.
    destruct (seq _ _ !! i) as [a|] eqn:Ei; [|discriminate].
    destruct (seq _ _ !! j) as [b|] eqn:Ej; [|discriminate].
    apply lookup_seq in Ei as [-> _]. apply lookup_seq in Ej as [-> _].
    cbn in H1, H2. injection H1 as <-. injection H2 as <-.
    apply Hmono. lia.
Qed.

Lemma dt_fresh_per_request_witness :
  (forall k, datetime_ok (clock process_ex k) = true) /\
  (forall i j, (i <= j)%nat ->
     datetime_leb (clock process_ex i) (clock process_ex j) = true) /\
  timestamps (serve_forever process_ex [get_ex; options_ex; post_ex]).2
  = [clock_ex 0; clock_ex 1] /\
  (forall i j d1 d2,
     (i <= j)%nat ->
     timestamps (serve_forever process_ex [get_ex; options_ex; post_ex]).2 !! i
     = Some d1 ->
     timestamps (serve_forever process_ex [get_ex; options_ex; post_ex]).2 !! j
     = Some d2 ->
     datetime_leb d1 d2 = true).
Proof.
  split; [exact clock_ex_ok|]. split; [exact clock_ex_monotone|].
  destruct (dt_fresh_per_request process_ex clock_ex_ok) as (_ & Hrun & Hord).
  split.
  - rewrite Hrun. reflexivity.
  - apply Hord. exact clock_ex_monotone.
Defined.

(** C6, as the specification states it, fails: [dt] is the local wall
    clock, which can be set back.  With a clock that reads 01:59:59.5
    and then, one hour set back, 01:00:00.25, the second of two
    requests in a row carries the earlier timestamp. *)
Lemma dt_decreases_when_clock_set_back :
  let p := mk_process clock_back 0 ∅ [] in
  datetime_ok (clock_back 0) = true /\
  datetime_ok (clock_back 1) = true /\
  timestamps (serve_forever p [get_ex; get_ex]).2
  = [mk_datetime 2024 11 3 1 59 59 500000;
     mk_datetime 2024 11 3 1 0 0 250000] /\
  datetime_leb (mk_datetime 2024 11 3 1 59 59 500000)
    (mk_datetime 2024 11 3 1 0 0 250000) = false.
Proof.
  vm_compute. repeat split.
Qed.

(** C7. The [message] member of the body is the literal
    ["Hello from python"], for every GET or POST request, path, clock
    reading and environment. *)
Theorem message_is_hello (r : request) (p : process) :
  command r = py "GET" \/ command r = py "POST" ->
  exists o,
    (handle_one_request r p).2 = Responded o /\
    body_field "message" o = Some (py "Hello from python").
Proof.
  intros Hc. rewrite handle_get_post by exact Hc.
  eexists. split; [reflexivity | apply json_response_message].
Qed.

Lemma message_is_hello_witness :
  (command post_other_ex = py "GET" \/ command post_other_ex = py "POST") /\
  exists o,
    (handle_one_request post_other_ex process_other_ex).2 = Responded o /\
    body_field "message" o = Some (py "Hello from python").
Proof.
  split; [right; reflexivity|].
  apply (message_is_hello post_other_ex process_other_ex). right; reflexivity.
Defined.

(** C8, as the code has it.  For a GET or POST request the handler
    prints one line on standard output: ["Request received: "], the
    method, the path, [" from "] and the client IP address; for an
    OPTIONS request it prints none.  Besides, [send_response] of the
    base class logs each of these requests: one line on standard error
    with the client address, the request line and the status 200.  So
    the console shows two lines for a GET or POST request and exactly
    one for an OPTIONS request.  (The method, the path, the address and
    the text of the time hold no newline.) *)
Theorem console_lines_per_request (r : request) (p : process) (date : str) :
  ~ In 10 (command r) ->
  ~ In 10 (path r) ->
  ~ In 10 (client_address r).1 ->
  ~ In 10 date ->
  (command r = py "GET" \/ command r = py "POST" ->
   stdout (handle_one_request r p).1
   = stdout p ++
     (py "Request received: " ++ command r ++ py " " ++ path r ++
      py " from " ++ (client_address r).1) ++ [10] /\
   count_lines (stdout (handle_one_request r p).1)
   = S (count_lines (stdout p)) /\
   stderr_log <$> handle_one_request_base r p
   = Some [mk_log (client_address r).1
             ([34] ++ requestline r ++ [34] ++ py " 200 -")] /\
   console_lines date r p = Some 2%nat) /\
  (command r = py "OPTIONS" ->
   stdout (handle_one_request r p).1 = stdout p /\
   stderr_log <$> handle_one_request_base r p
   = Some [mk_log (client_address r).1
             ([34] ++ requestline r ++ [34] ++ py " 200 -")] /\
   console_lines date r p = Some 1%nat) /\
  count_lines
    (stderr_line date
       (mk_log (client_address r).1
          ([34] ++ requestline r ++ [34] ++ py " 200 -"))) = 1%nat.
Proof.
  intros Hc Hp Ha Hd.
  assert (Hline : count_lines (stderr_line date (access_entry r 200)) = 1%nat)
    by (apply count_lines_stderr_line; assumption).
  split; [|split].
  - intros Hgp.
    assert (Hout : stdout (handle_one_request r p).1
                   = stdout p ++
                     log_line (command r) (path r) (client_address r).1 ++ [10])
      by now rewrite handle_get_post.
    assert (Hcount : count_lines (stdout (handle_one_request r p).1)
                     = S (count_lines (stdout p))).
    { rewrite Hout, count_lines_app, count_lines_request_line by assumption.
      lia. }
    split; [exact Hout|]. split; [exact Hcount|].
    unfold console_lines. rewrite handle_base_get_post by exact Hgp.
    cbn [fmap option_fmap option_map mbind option_bind json_base stderr_log
         flat_map].
    rewrite Hcount, app_nil_r, Hline, access_entry_200.
    split; [reflexivity|]. f_equal. lia.
  - intros Ho.
    assert (Hout : stdout (handle_one_request r p).1 = stdout p)
      by now rewrite handle_options.
    split; [exact Hout|].
    unfold console_lines. rewrite handle_base_options by exact Ho.
    cbn [fmap option_fmap option_map mbind option_bind options_base stderr_log
         flat_map].
    rewrite Hout, app_nil_r, Hline, access_entry_200.
    split; [reflexivity|]. f_equal. lia.
  - now rewrite <- access_entry_200.
Qed.

Lemma console_lines_per_request_witness :
  ~ In 10 (command options_ex) /\
  ~ In 10 (path options_ex) /\
  ~ In 10 (client_address options_ex).1 /\
  ~ In 10 (py "05/Nov/2026 10:00:00") /\
  command options_ex = py "OPTIONS" /\
  console_lines (py "05/Nov/2026 10:00:00") options_ex process_ex
  = Some 1%nat.
Proof.
  assert (Hc : ~ In 10 (command options_ex))
    by (vm_compute; intuition discriminate).
  assert (Hp : ~ In 10 (path options_ex))
    by (vm_compute; intuition discriminate).
  assert (Ha : ~ In 10 (client_address options_ex).1)
    by (vm_compute; intuition discriminate).
  assert (Hd : ~ In 10 (py "05/Nov/2026 10:00:00"))
    by (vm_compute; intuition discriminate).
  repeat (split; [assumption|]). split; [reflexivity|].
  destruct (console_lines_per_request options_ex process_ex
              (py "05/Nov/2026 10:00:00") Hc Hp Ha Hd) as (_ & Ho & _).
  destruct Ho as (_ & _ & Hn); [reflexivity | exact Hn].
Defined.

(** C8, as the specification states it, fails for GET: the request
    [GET / HTTP/1.1] puts two lines on the console, the line the handler
    prints on standard output and the access-log line of the base class
    on standard error. *)
Lemma get_writes_two_console_lines :
  stdout (handle_one_request get_ex process_ex).1
  = py "Request received: GET / from 127.0.0.1" ++ [10] /\
  flat_map (stderr_line (py "05/Nov/2026 10:00:00"))
    <$> (stderr_log <$> handle_one_request_base get_ex process_ex)
  = Some (pyq "127.0.0.1 - - [05/Nov/2026 10:00:00] 'GET / HTTP/1.1' 200 -"
          ++ [10]) /\
  console_lines (py "05/Nov/2026 10:00:00") get_ex process_ex = Some 2%nat /\
  console_lines (py "05/Nov/2026 10:00:00") get_ex process_ex <> Some 1%nat.
Proof.
  vm_compute. repeat split. intros [=].
Qed.

(** C9. For a method other than GET, POST and OPTIONS the class has no
    [do_<METHOD>] method: no code of the handler runs (nothing is
    printed, the clock is not read), the outcome is not a response of
    the handler, so neither the 200 JSON response nor the CORS headers
    are sent, and the base class answers with [send_error(501)]. *)
Theorem unsupported_method_not_handled (r : request) (p : process) :
  command r <> py "GET" ->
  command r <> py "POST" ->
  command r <> py "OPTIONS" ->
  getattr (py "do_" ++ command r) = None /\
  handle_one_request r p = (p, SendError 501) /\
  (forall o, (handle_one_request r p).2 <> Responded o).
Proof.
  intros H1 H2 H3. split; [|split].
  - rewrite getattr_do. now rewrite !bool_decide_eq_false_2 by congruence.
  - now apply handle_other.
  - intros o. now rewrite handle_other.
Qed.

Lemma unsupported_method_not_handled_witness :
  command delete_ex <> py "GET" /\
  command delete_ex <> py "POST" /\
  command delete_ex <> py "OPTIONS" /\
  handle_one_request delete_ex process_ex = (process_ex, SendError 501).
Proof.
  assert (H1 : command delete_ex <> py "GET") by (intros [=]).
  assert (H2 : command delete_ex <> py "POST") by (intros [=]).
  assert (H3 : command delete_ex <> py "OPTIONS") by (intros [=]).
  repeat (split; [assumption|]).
  apply (unsupported_method_not_handled delete_ex process_ex H1 H2 H3).
Defined.

(** C10. Two GET or POST requests handled at the same clock reading and
    with the same [SF_TAG] get the same response (status, headers and
    body), whatever their paths, their headers and bodies, their
    clients, which of the two methods each uses, and the rest of the
    environment: the response is a function of the clock reading and of
    [SF_TAG] only. *)
Theorem response_depends_on_clock_and_tag_only
  (r1 r2 : request) (p1 p2 : process) :
  command r1 = py "GET" \/ command r1 = py "POST" ->
  command r2 = py "GET" \/ command r2 = py "POST" ->
  clock p1 (clock_reads p1) = clock p2 (clock_reads p2) ->
  environ p1 !! py "SF_TAG" = environ p2 !! py "SF_TAG" ->
  exists o,
    (handle_one_request r1 p1).2 = Responded o /\
    (handle_one_request r2 p2).2 = Responded o /\
    o = json_response (clock p1 (clock_reads p1))
          match environ p1 !! py "SF_TAG" with
          | Some v => v
          | None => py "latest"
          end.
Proof.
  intros H1 H2 Hclock Henv.
  rewrite (handle_get_post r1), (handle_get_post r2) by assumption.
  eexists. split; [reflexivity|]. unfold version_in.
  rewrite <- Hclock, <- Henv.
  split; [reflexivity|]. now destruct (environ p1 !! py "SF_TAG").
Qed.

Lemma response_depends_on_clock_and_tag_only_witness :
  (command get_ex = py "GET" \/ command get_ex = py "POST") /\
  (command post_other_ex = py "GET" \/ command post_other_ex = py "POST") /\
  clock process_ex (clock_reads process_ex)
  = clock process_other_ex (clock_reads process_other_ex) /\
  environ process_ex !! py "SF_TAG" = environ process_other_ex !! py "SF_TAG" /\
  (handle_one_request get_ex process_ex).2
  = (handle_one_request post_other_ex process_other_ex).2.
Proof.
  assert (H1 : command get_ex = py "GET" \/ command get_ex = py "POST")
    by (left; reflexivity).
  assert (H2 : command post_other_ex = py "GET" \/
               command post_other_ex = py "POST") by (right; reflexivity).
  assert (H3 : clock process_ex (clock_reads process_ex)
               = clock process_other_ex (clock_reads process_other_ex))
    by reflexivity.
  assert (H4 : environ process_ex !! py "SF_TAG"
               = environ process_other_ex !! py "SF_TAG")
    by (vm_compute; reflexivity).
  repeat (split; [assumption|]).
  destruct (response_depends_on_clock_and_tag_only
              get_ex post_other_ex process_ex process_other_ex H1 H2 H3 H4)
    as (o & Ho1 & Ho2 & _).
  now rewrite Ho1, Ho2.
Defined.

(** * Further properties of the code *)

(** ** Runs: console, independence of the requests *)

Section MoreRuns.

Lemma serve_forever_app a : forall p b,
  serve_forever p (a ++ b)
  = ((serve_forever (serve_forever p a).1 b).1,
     (serve_forever p a).2 ++ (serve_forever (serve_forever p a).1 b).2).
Proof.
  induction a as [|r a IH]; intros p b.
  - cbn. now destruct (serve_forever p b).
  - rewrite <- app_comm_cons, !serve_forever_cons, IH. reflexivity.
Qed.

Lemma serve_forever_length reqs : forall p,
  length (serve_forever p reqs).2 = length reqs.
Proof.
  induction reqs as [|r reqs IH]; intros p; [reflexivity|].
  rewrite serve_forever_cons. cbn. now rewrite IH.
Qed.

Lemma console_of_get_post r :
  get_or_post r ->
  console_of r = log_line (command r) (path r) (client_address r).1 ++ [10].
Proof. intros H. unfold console_of. now rewrite decide_True. Qed.

Lemma console_of_other r : ~ get_or_post r -> console_of r = [].
Proof. intros H. unfold console_of. now rewrite decide_False. Qed.

Lemma serve_forever_stdout reqs : forall p,
  stdout (serve_forever p reqs).1 = stdout p ++ flat_map console_of reqs.
Proof.
  induction reqs as [|r reqs IH]; intros p.
  - cbn. now rewrite app_nil_r.
  - rewrite serve_forever_cons. cbn [fst flat_map]. rewrite IH.
    destruct (handle_cases r p) as [[Hc E]|[[Hc E]|[Hc E]]]; rewrite E;
      cbn [fst].
    + rewrite console_of_get_post by exact Hc.
      unfold process_after. cbn [stdout]. now rewrite <- !app_assoc.
    + now rewrite console_of_other by now apply not_get_or_post_options.
    + now rewrite console_of_other by (unfold get_or_post; tauto).
Qed.

(** The outcome of a request depends on the process through the clock,
    the number of readings and the environment only. *)
Lemma handle_outcome_ext r p q :
  clock p = clock q -> clock_reads p = clock_reads q ->
  environ p = environ q ->
  (handle_one_request r p).2 = (handle_one_request r q).2.
Proof.
  intros H1 H2 H3.
  destruct (handle_cases r p) as [[Hc E]|[[Hc E]|[Hc E]]]; rewrite E.
  - rewrite handle_get_post by exact Hc. cbn [snd]. unfold version_in.
    now rewrite H1, H2, H3.
  - now rewrite handle_options.
  - now rewrite handle_other by tauto.
Qed.

Lemma handle_process_ext r p q :
  clock p = clock q -> clock_reads p = clock_reads q ->
  environ p = environ q ->
  clock (handle_one_request r p).1 = clock (handle_one_request r q).1 /\
  clock_reads (handle_one_request r p).1
  = clock_reads (handle_one_request r q).1 /\
  environ (handle_one_request r p).1 = environ (handle_one_request r q).1.
Proof.
  intros H1 H2 H3.
  destruct (handle_cases r p) as [[Hc E]|[[Hc E]|[Hc E]]]; rewrite E.
  - rewrite handle_get_post by exact Hc. cbn. now rewrite H1, H2, H3.
  - now rewrite handle_options.
  - now rewrite handle_other by tauto.
Qed.

Lemma serve_forever_ext reqs : forall p q,
  clock p = clock q -> clock_reads p = clock_reads q ->
  environ p = environ q ->
  (serve_forever p reqs).2 = (serve_forever q reqs).2.
Proof.
  induction reqs as [|r reqs IH]; intros p q H1 H2 H3; [reflexivity|].
  rewrite !serve_forever_cons. cbn [snd].
  destruct (handle_process_ext r p q H1 H2 H3) as (K1 & K2 & K3).
  rewrite (handle_outcome_ext r p q H1 H2 H3).
  f_equal. now apply IH.
Qed.

Lemma has_body_json_response dt version :
  has_body (Responded (json_response dt version)) = true.
Proof. reflexivity. Qed.

Lemma decimal_PORT : decimal PORT = py "3000".
Proof. vm_compute. reflexivity. Qed.

End MoreRuns.

(** X1. What the program writes on standard output.  When the server
    can bind its address: the four start-up lines, then the lines of the
    GET and POST requests in the order of their arrival; the start-up
    messages change neither the responses nor the environment.  When
    the bind fails: the first two lines only, and no request is
    served. *)
Theorem main_standard_output (p : process) (reqs : list request) :
  stdout (main true p reqs).1
  = stdout p ++
    (py "Script start" ++ [10] ++ py "Server created" ++ [10] ++
     py "Server listening callback" ++ [10] ++
     py "Server running on 0.0.0.0:3000" ++ [10]) ++
    flat_map
      (fun r =>
         if decide (command r = py "GET" \/ command r = py "POST")
         then (py "Request received: " ++ command r ++ py " " ++ path r ++
               py " from " ++ (client_address r).1) ++ [10]
         else [])
      reqs /\
  (main true p reqs).2 = Some (serve_forever p reqs).2 /\
  environ (main true p reqs).1 = environ p /\
  stdout (main false p reqs).1
  = stdout p ++ py "Script start" ++ [10] ++ py "Server created" ++ [10] /\
  (main false p reqs).2 = None.
Proof.
  unfold main.
  set (q := write_stdout
              (py "Server running on " ++ HOST ++ py ":" ++ decimal PORT ++ [10])
              (write_stdout (py "Server listening callback" ++ [10])
                 (write_stdout (py "Server created" ++ [10])
                    (write_stdout (py "Script start" ++ [10]) p)))).
  assert (E : serve_forever q reqs
              = ((serve_forever q reqs).1, (serve_forever q reqs).2))
    by now destruct (serve_forever q reqs).
  rewrite E. cbn [fst snd]. split; [|split; [|split; [|split]]].
  - rewrite serve_forever_stdout. unfold q, write_stdout. cbn [stdout].
    rewrite decimal_PORT. unfold HOST.
    change (py "Server running on " ++ py "0.0.0.0" ++ py ":" ++ py "3000" ++ [10])
      with (py "Server running on 0.0.0.0:3000" ++ [10]).
    rewrite <- !app_assoc. reflexivity.
  - f_equal. now apply serve_forever_ext.
  - now destruct (serve_forever_process reqs q) as (_ & H & _).
  - unfold write_stdout. cbn [stdout]. now rewrite <- !app_assoc.
  - reflexivity.
Qed.

(** X2. The server keeps no state between requests: in any run, the
    outcome of a request is the outcome it has on its own in a process
    that differs from the initial one only in the number of clock
    readings, one per earlier GET or POST request; the earlier requests
    (their paths, clients, headers and bodies) and what is on standard
    output do not enter. *)
Theorem request_outcome_in_run
  (pre post : list request) (r : request) (p : process) (out : str) :
  (serve_forever p (pre ++ r :: post)).2 !! length pre
  = Some (handle_one_request r
            (mk_process (clock p)
               (clock_reads p + length (filter get_or_post pre))
               (environ p) out)).2.
Proof.
  rewrite serve_forever_app. cbn [snd].
  rewrite lookup_app_r by (rewrite serve_forever_length; lia).
  rewrite serve_forever_length, Nat.sub_diag, serve_forever_cons.
  cbn [snd lookup list_lookup]. f_equal.
  destruct (serve_forever_process pre p) as (H1 & H2 & H3).
  now apply handle_outcome_ext.
Qed.

(** X3. OPTIONS requests and requests of unsupported methods leave no
    trace: a run ends in the same process (clock readings, environment,
    standard output) as the run of its GET and POST requests alone, and
    the responses with a body are the same, in the same order. *)
Theorem options_and_unsupported_leave_no_trace
  (p : process) (reqs : list request) :
  (serve_forever p (filter get_or_post reqs)).1 = (serve_forever p reqs).1 /\
  (serve_forever p (filter get_or_post reqs)).2
  = filter (fun o => has_body o = true) (serve_forever p reqs).2.
Proof.
  revert p. induction reqs as [|r reqs IH]; intros p; [now split|].
  destruct (handle_cases r p) as [[Hc E]|[[Hc E]|[Hc E]]].
  - rewrite filter_cons_True by exact Hc. rewrite !serve_forever_cons, E.
    cbn [fst snd]. rewrite filter_cons_True by apply has_body_json_response.
    destruct (IH (process_after r p)) as [IH1 IH2]. now rewrite IH1, IH2.
  - rewrite filter_cons_False by now apply not_get_or_post_options.
    rewrite (serve_forever_cons p r), E. cbn [fst snd].
    rewrite filter_cons_False by (cbn; discriminate). apply IH.
  - rewrite filter_cons_False by (unfold get_or_post; tauto).
    rewrite (serve_forever_cons p r), E. cbn [fst snd].
    rewrite filter_cons_False by (cbn; discriminate). apply IH.
Qed.

(** ** The text of the body *)

Section BodyText.

Lemma printable_app a b : printable a -> printable b -> printable (a ++ b).
Proof. apply Forall_app_2. Qed.

Lemma printable_check (s : str) :
  forallb (fun c => (32 <=? c) && (c <=? 126)) s = true -> printable s.
Proof.
  intros H. apply Forall_forall. intros c Hc%list_elem_of_In.
  rewrite forallb_forall in H. specialize (H c Hc).
  apply andb_true_iff in H as [H1 H2].
  apply N.leb_le in H1. apply N.leb_le in H2. lia.
Qed.

Lemma printable_flat_map {A} (f : A -> str) (l : list A) :
  (forall x, printable (f x)) -> printable (flat_map f l).
Proof.
  intros H. induction l as [|x l IH]; [constructor|].
  cbn [flat_map]. apply printable_app; [apply H | exact IH].
Qed.

Lemma hex4_printable n : printable (hex4 n).
Proof.
  unfold hex4.
  repeat constructor;
    match goal with
    | |- context [hex_char ?d] =>
        pose proof (hex_char_ascii d ltac:(apply N.mod_lt; lia)); lia
    end.
Qed.

(** What [json.dumps] writes for a character is printable ASCII. *)
Lemma escape_char_printable c : printable (escape_char c).
Proof.
  unfold escape_char.
  repeat match goal with
         | |- context [if ?x =? ?k then _ else _] =>
             destruct (N.eqb_spec x k) as [->|?];
             [now apply printable_check |]
         end.
  destruct ((32 <=? c) && (c <=? 126)) eqn:Hp.
  - apply andb_true_iff in Hp as [Hlo Hhi].
    apply N.leb_le in Hlo. apply N.leb_le in Hhi.
    repeat constructor; lia.
  - apply printable_flat_map. intros u.
    apply printable_app; [now apply printable_check | apply hex4_printable].
Qed.

Lemma encode_basestring_ascii_printable s :
  printable (encode_basestring_ascii s).
Proof.
  unfold encode_basestring_ascii.
  apply printable_app; [now apply printable_check|].
  apply printable_app; [|now apply printable_check].
  apply printable_flat_map, escape_char_printable.
Qed.

Lemma dumps_items_printable d : printable (dumps_items d).
Proof.
  induction d as [|[k v] d IH]; [constructor|].
  cbn [dumps_items].
  apply printable_app; [apply encode_basestring_ascii_printable|].
  apply printable_app; [now apply printable_check|].
  apply printable_app; [apply encode_basestring_ascii_printable|].
  destruct d; [constructor|].
  apply printable_app; [now apply printable_check | exact IH].
Qed.

Lemma json_dumps_printable d : printable (json_dumps d).
Proof.
  unfold json_dumps.
  apply printable_app; [now apply printable_check|].
  apply printable_app; [apply dumps_items_printable|].
  now apply printable_check.
Qed.

Lemma escape_plain s :
  Forall plain_char s -> flat_map escape_char s = s.
Proof.
  induction 1 as [|c s (Hr & H34 & H92) _ IH]; [reflexivity|].
  cbn [flat_map]. rewrite IH. unfold escape_char.
  rewrite (proj2 (N.eqb_neq c 34)), (proj2 (N.eqb_neq c 92)) by assumption.
  rewrite !(proj2 (N.eqb_neq c _)) by lia.
  replace ((32 <=? c) && (c <=? 126)) with true; [reflexivity|].
  symmetry. apply andb_true_iff. split; apply N.leb_le; lia.
Qed.

Lemma decimal_aux_digits f : forall n acc,
  Forall (fun c => 48 <= c <= 57) acc ->
  Forall (fun c => 48 <= c <= 57) (decimal_aux f n acc).
Proof.
  induction f as [|f IH]; intros n acc Hacc; [exact Hacc|].
  cbn [decimal_aux]. destruct (N.ltb_spec n 10).
  - constructor; [unfold digit_char; lia | exact Hacc].
  - apply IH. constructor; [|exact Hacc].
    pose proof (N.mod_lt n 10 ltac:(lia)) as Hm. unfold digit_char.
    revert Hm. generalize (n mod 10). intros m Hm. lia.
Qed.

(** ["%0wd"] writes digits only. *)
Lemma format_0d_digits w n : Forall (fun c => 48 <= c <= 57) (format_0d w n).
Proof.
  unfold format_0d. apply Forall_app_2.
  - apply Forall_forall. intros c Hc%list_elem_of_In.
    apply repeat_spec in Hc. subst c. unfold digit_char. lia.
  - apply decimal_aux_digits. constructor.
Qed.

Lemma digits_plain s :
  Forall (fun c => 48 <= c <= 57) s -> Forall plain_char s.
Proof.
  intros H. eapply Forall_impl; [exact H|].
  cbn. intros c Hc. unfold plain_char. lia.
Qed.

Lemma plain_check (s : str) :
  forallb (fun c => (32 <=? c) && (c <=? 126) && negb (c =? 34)
                    && negb (c =? 92)) s = true ->
  Forall plain_char s.
Proof.
  intros H. apply Forall_forall. intros c Hc%list_elem_of_In.
  rewrite forallb_forall in H. specialize (H c Hc).
  rewrite !andb_true_iff, !negb_true_iff, !N.leb_le, !N.eqb_neq in H.
  unfold plain_char. tauto.
Qed.

(** [isoformat] writes digits and the separators [-], [T], [:] and [.]
    only: nothing that [json.dumps] escapes. *)
Lemma isoformat_plain d : Forall plain_char (isoformat d).
Proof.
  unfold isoformat.
  repeat (apply Forall_app_2;
          [first [apply digits_plain, format_0d_digits
                 | now apply plain_check]|]).
  destruct (microsecond d =? 0); [constructor|].
  apply Forall_app_2;
    [now apply plain_check | apply digits_plain, format_0d_digits].
Qed.

End BodyText.

(** X4. Whatever [SF_TAG] holds (quotes, backslashes, line breaks, any
    Unicode), every byte of the body of a GET or POST response is
    printable ASCII, from the space to the tilde: the body is one line
    and has no control byte. *)
Theorem body_is_printable_ascii (r : request) (p : process) :
  command r = py "GET" \/ command r = py "POST" ->
  exists o,
    (handle_one_request r p).2 = Responded o /\
    Forall (fun b => 32 <= Byte.to_N b <= 126) (wfile o) /\
    ~ In x0a (wfile o) /\ ~ In x0d (wfile o).
Proof.
  intros Hc. rewrite handle_get_post by exact Hc.
  eexists. split; [reflexivity|].
  assert (H : Forall (fun b => 32 <= Byte.to_N b <= 126)
                (wfile (json_response (clock p (clock_reads p))
                          (version_in p)))).
  { cbn [json_response wfile]. apply Forall_fmap.
    eapply Forall_impl; [apply json_dumps_printable|].
    cbn. intros c Hc'. rewrite to_N_byte_of_N by lia. exact Hc'. }
  split; [exact H|].
  rewrite Forall_forall in H.
  split; intros Hin%list_elem_of_In; apply H in Hin; vm_compute in Hin;
    destruct Hin as [Hlo _]; now apply Hlo.
Qed.

Lemma body_is_printable_ascii_witness :
  (command get_ex = py "GET" \/ command get_ex = py "POST") /\
  exists o,
    (handle_one_request get_ex
       (os_environ_set (py "SF_TAG") [34; 10; 233; 128512] process_ex)).2
    = Responded o /\
    Forall (fun b => 32 <= Byte.to_N b <= 126) (wfile o) /\
    ~ In x0a (wfile o) /\ ~ In x0d (wfile o).
Proof.
  split; [left; reflexivity|].
  apply (body_is_printable_ascii get_ex
           (os_environ_set (py "SF_TAG") [34; 10; 233; 128512] process_ex)).
  left; reflexivity.
Defined.

(** X5. When the version has only characters that JSON writes as they
    are (printable ASCII without the quote and the backslash), the body
    of a GET or POST response is, byte for byte, the text
    [{"message": "Hello from python", "dt": "<dt>", "version": "<version>"}]
    with the ISO text of the clock reading and the version in place. *)
Theorem body_text_of_plain_version (r : request) (p : process) :
  command r = py "GET" \/ command r = py "POST" ->
  Forall plain_char
    match environ p !! py "SF_TAG" with
    | Some v => v
    | None => py "latest"
    end ->
  exists o,
    (handle_one_request r p).2 = Responded o /\
    ascii_decode (wfile o)
    = Some (pyq "{'message': 'Hello from python', 'dt': '" ++
            isoformat (clock p (clock_reads p)) ++
            pyq "', 'version': '" ++
            match environ p !! py "SF_TAG" with
            | Some v => v
            | None => py "latest"
            end ++
            pyq "'}").
Proof.
  intros Hc Hplain. rewrite handle_get_post by exact Hc.
  eexists. split; [reflexivity|].
  cbn [json_response wfile].
  rewrite ascii_decode_encode by apply json_dumps_ascii. f_equal.
  assert (Hv : version_in p
               = match environ p !! py "SF_TAG" with
                 | Some v => v
                 | None => py "latest"
                 end)
    by (unfold version_in; now destruct (environ p !! py "SF_TAG")).
  rewrite <- Hv in *.
  unfold json_dumps, response_data, dumps_items, encode_basestring_ascii.
  rewrite (escape_plain (isoformat _)) by apply isoformat_plain.
  rewrite (escape_plain (version_in p)) by exact Hplain.
  generalize (isoformat (clock p (clock_reads p))) (version_in p).
  intros iso v. rewrite <- !app_assoc. reflexivity.
Qed.

Lemma body_text_of_plain_version_witness :
  (command get_ex = py "GET" \/ command get_ex = py "POST") /\
  Forall plain_char
    match environ process_ex !! py "SF_TAG" with
    | Some v => v
    | None => py "latest"
    end /\
  exists o,
    (handle_one_request get_ex process_ex).2 = Responded o /\
    ascii_decode (wfile o)
    = Some (pyq "{'message': 'Hello from python', 'dt': '" ++
            isoformat (clock process_ex (clock_reads process_ex)) ++
            pyq "', 'version': '" ++
            match environ process_ex !! py "SF_TAG" with
            | Some v => v
            | None => py "latest"
            end ++
            pyq "'}").
Proof.
  assert (H1 : command get_ex = py "GET" \/ command get_ex = py "POST")
    by (left; reflexivity).
  assert (H2 : Forall plain_char
                 match environ process_ex !! py "SF_TAG" with
                 | Some v => v
                 | None => py "latest"
                 end)
    by (apply plain_check; vm_compute; reflexivity).
  split; [exact H1|]. split; [exact H2|].
  apply (body_text_of_plain_version get_ex process_ex H1 H2).
Defined.

(** ** Strings through JSON *)

Section Utf16.

Lemma land_mul_pow2_low a b k : b < 2 ^ k -> N.land (a * 2 ^ k) b = 0.
Proof.
  intros Hb. apply N.bits_inj_0. intros n. rewrite N.land_spec.
  destruct (N.lt_ge_cases n k) as [Hn|Hn].
  - now rewrite N.mul_pow2_bits_low.
  - destruct (N.eq_dec b 0) as [->|Hb0].
    + now rewrite N.bits_0, andb_false_r.
    + rewrite (N.bits_above_log2 b n), andb_false_r; [reflexivity|].
      eapply N.lt_le_trans; [|exact Hn].
      apply N.log2_lt_pow2; [lia | exact Hb].
Qed.

(** Bits that do not overlap add up. *)
Lemma lor_mul_pow2_low a b k : b < 2 ^ k -> N.lor (a * 2 ^ k) b = a * 2 ^ k + b.
Proof.
  intros Hb. pose proof (land_mul_pow2_low a b k Hb) as H.
  rewrite <- N.lxor_lor by exact H. symmetry. now apply N.add_nocarry_lxor.
Qed.

Lemma land_1023 x : N.land x 1023 = x mod 1024.
Proof. change 1023 with (N.ones 10). now rewrite N.land_ones. Qed.

(** The two halves of a character above the basic plane. *)
Lemma utf16_pair c :
  65536 <= c < 1114112 ->
  exists a b,
    a < 1024 /\ b < 1024 /\ c = 65536 + a * 1024 + b /\
    utf16 c = [55296 + a; 56320 + b].
Proof.
  intros [Hlo Hhi]. unfold utf16.
  rewrite (proj2 (N.ltb_ge c 65536)) by exact Hlo.
  cbv zeta. rewrite !land_1023, N.shiftr_div_pow2.
  change (2 ^ 10) with 1024.
  assert (Hn : c - 65536 < 1048576) by lia.
  remember (c - 65536) as n eqn:En.
  pose proof (N.div_mod n 1024 ltac:(lia)) as Hdm.
  pose proof (N.mod_lt n 1024 ltac:(lia)) as Hb.
  assert (Ha : n / 1024 < 1024)
    by (apply N.Div0.div_lt_upper_bound; exact Hn).
  rewrite (N.mod_small (n / 1024)) by exact Ha.
  revert Hdm Hb Ha. generalize (n / 1024) (n mod 1024). intros a b Hdm Hb Ha.
  exists a, b. repeat split; try assumption; [lia|].
  change 55296 with (27 * 2 ^ 11). change 56320 with (55 * 2 ^ 10).
  rewrite !lor_mul_pow2_low; [reflexivity | | ].
  - change (2 ^ 10) with 1024. exact Hb.
  - change (2 ^ 11) with 2048. lia.
Qed.

Lemma utf16_decode_pair a b rest :
  a < 1024 -> b < 1024 ->
  utf16_decode (55296 + a :: 56320 + b :: rest)
  = 65536 + a * 1024 + b :: utf16_decode rest.
Proof.
  intros Ha Hb. cbn [utf16_decode]. unfold is_high_surrogate, is_low_surrogate.
  replace ((55296 <=? 55296 + a) && (55296 + a <=? 56319)) with true
    by (symmetry; apply andb_true_iff; split; apply N.leb_le; lia).
  replace ((56320 <=? 56320 + b) && (56320 + b <=? 57343)) with true
    by (symmetry; apply andb_true_iff; split; apply N.leb_le; lia).
  cbn [andb]. f_equal.
  replace (55296 + a - 55296) with a by lia.
  replace (56320 + b - 56320) with b by lia.
  rewrite N.shiftl_mul_pow2.
  rewrite lor_mul_pow2_low by (change (2 ^ 10) with 1024; exact Hb).
  change (2 ^ 10) with 1024. lia.
Qed.

(** Joining the code units of a text gives the text back, when it has
    no high surrogate of its own. *)
Lemma utf16_decode_units s :
  Forall no_high_surrogate s -> utf16_decode (flat_map utf16 s) = s.
Proof.
  induction 1 as [|c s [Hc Hh] _ IH]; [reflexivity|].
  cbn [flat_map]. destruct (N.lt_ge_cases c 65536) as [Hlt|Hge].
  - unfold utf16 at 1. rewrite (proj2 (N.ltb_lt c 65536)) by exact Hlt.
    cbn [app utf16_decode]. rewrite Hh. cbn [andb].
    destruct (flat_map utf16 s) as [|l r'] eqn:E.
    + now rewrite <- IH.
    + now rewrite IH.
  - destruct (utf16_pair c (conj Hge Hc)) as (a & b & Ha & Hb & -> & ->).
    cbn [app]. now rewrite utf16_decode_pair, IH.
Qed.

Lemma no_high_surrogate_check (s : str) :
  forallb (fun c => (c <? 1114112) && negb (is_high_surrogate c)) s = true ->
  Forall no_high_surrogate s.
Proof.
  intros H. apply Forall_forall. intros c Hc%list_elem_of_In.
  rewrite forallb_forall in H. specialize (H c Hc).
  apply andb_true_iff in H as [H1 H2].
  apply N.ltb_lt in H1. apply negb_true_iff in H2. now split.
Qed.

End Utf16.

(** X6. The [version] member of the body, read back as [json.loads]
    reads it, is exactly the value of [SF_TAG] (or ["latest"]), for
    every value without a high surrogate: quotes, backslashes, control
    characters, non-ASCII characters, characters above the basic plane
    and the low surrogates that stand for undecodable bytes all come
    back unchanged. *)
Theorem version_read_back_exactly (r : request) (p : process) :
  command r = py "GET" \/ command r = py "POST" ->
  Forall no_high_surrogate
    match environ p !! py "SF_TAG" with
    | Some v => v
    | None => py "latest"
    end ->
  exists o,
    (handle_one_request r p).2 = Responded o /\
    utf16_decode <$> body_version o
    = Some match environ p !! py "SF_TAG" with
           | Some v => v
           | None => py "latest"
           end.
Proof.
  intros Hc Hs. rewrite handle_get_post by exact Hc.
  eexists. split; [reflexivity|].
  rewrite json_response_version. cbn [fmap option_fmap option_map].
  f_equal. unfold version_in.
  destruct (environ p !! py "SF_TAG") as [v|]; cbn [from_option id];
    now apply utf16_decode_units.
Qed.

Lemma version_read_back_exactly_witness :
  let p := os_environ_set (py "SF_TAG") [34; 92; 10; 233; 128512; 56448]
             process_ex in
  (command get_ex = py "GET" \/ command get_ex = py "POST") /\
  exists o,
    (handle_one_request get_ex p).2 = Responded o /\
    utf16_decode <$> body_version o = Some [34; 92; 10; 233; 128512; 56448].
Proof.
  cbv zeta. split; [left; reflexivity|].
  destruct (version_read_back_exactly get_ex
              (os_environ_set (py "SF_TAG") [34; 92; 10; 233; 128512; 56448]
                 process_ex)) as (o & Ho & Hv).
  - left; reflexivity.
  - apply no_high_surrogate_check. vm_compute. reflexivity.
  - exists o. split; [exact Ho|]. rewrite Hv. vm_compute. reflexivity.
Defined.

(** X7. [json.dumps] loses nothing: for a dictionary whose keys and
    values have no high surrogate, reading the text back gives the same
    keys and values in the same order. *)
Theorem json_dumps_round_trip (d : list (str * str)) :
  Forall (fun kv => Forall no_high_surrogate kv.1 /\
                    Forall no_high_surrogate kv.2) d ->
  json_loads (json_dumps d) ≫= json_strings = Some d.
Proof.
  intros Hd. rewrite json_loads_dumps. cbn [mbind option_bind].
  unfold json_of_dict, json_strings.
  induction Hd as [|[k v] d [Hk Hv] _ IH]; [reflexivity|].
  cbn [map mapM fst snd]. cbn [fst snd] in Hk, Hv.
  rewrite !utf16_decode_units by assumption.
  cbn [mbind option_bind]. rewrite IH. reflexivity.
Qed.

Lemma json_dumps_round_trip_witness :
  let d := [(py "a", [34; 92; 10]); ([233], [128512; 56448]); ([], [])] in
  Forall (fun kv => Forall no_high_surrogate kv.1 /\
                    Forall no_high_surrogate kv.2) d /\
  json_loads (json_dumps d) ≫= json_strings = Some d.
Proof.
  cbv zeta.
  assert (H : Forall (fun kv => Forall no_high_surrogate kv.1 /\
                                Forall no_high_surrogate kv.2)
                [(py "a", [34; 92; 10]); ([233], [128512; 56448]); ([], [])])
    by (repeat constructor; apply no_high_surrogate_check; reflexivity).
  split; [exact H|]. exact (json_dumps_round_trip _ H).
Defined.

(** ** The text of a timestamp *)

Section IsoText.

Lemma lex_leb_same c r1 r2 : lex_leb (c :: r1) (c :: r2) = lex_leb r1 r2.
Proof. cbn [lex_leb]. now rewrite N.ltb_irrefl, N.eqb_refl. Qed.

(** Fields of the same width compare as their numbers. *)
Lemma lex_leb_fixed w : forall a b r1 r2,
  a < 10 ^ N.of_nat w -> b < 10 ^ N.of_nat w ->
  lex_leb (fixed_digits w a ++ r1) (fixed_digits w b ++ r2)
  = (a <? b) || ((a =? b) && lex_leb r1 r2).
Proof.
  induction w as [|w IH]; intros a b r1 r2 Ha Hb.
  - cbn in Ha, Hb. assert (a = 0) by lia. assert (b = 0) by lia. subst.
    reflexivity.
  - rewrite Nat2N.inj_succ, N.pow_succ_r' in Ha, Hb.
    cbn [fixed_digits]. rewrite <- !app_assoc. cbn [app].
    rewrite IH by (apply N.Div0.div_lt_upper_bound; lia).
    cbn [lex_leb]. unfold digit_char.
    pose proof (N.div_mod a 10 ltac:(lia)) as Ea.
    pose proof (N.div_mod b 10 ltac:(lia)) as Eb.
    pose proof (N.mod_lt a 10 ltac:(lia)) as La.
    pose proof (N.mod_lt b 10 ltac:(lia)) as Lb.
    revert Ea Eb La Lb.
    generalize (a / 10) (a mod 10) (b / 10) (b mod 10) (lex_leb r1 r2).
    intros qa ra qb rb L Ea Eb La Lb.
    destruct (N.ltb_spec qa qb), (N.eqb_spec qa qb),
      (N.ltb_spec (48 + ra) (48 + rb)), (N.eqb_spec (48 + ra) (48 + rb)),
      (N.ltb_spec a b), (N.eqb_spec a b); cbn; try reflexivity; lia.
Qed.

Lemma lex_leb_fraction u1 u2 :
  u1 < 10 ^ N.of_nat 6 -> u2 < 10 ^ N.of_nat 6 ->
  lex_leb (if u1 =? 0 then [] else 46 :: fixed_digits 6 u1 ++ [])
    (if u2 =? 0 then [] else 46 :: fixed_digits 6 u2 ++ [])
  = (u1 <? u2) || ((u1 =? u2) && true).
Proof.
  intros H1 H2.
  destruct (N.eqb_spec u1 0) as [->|N1], (N.eqb_spec u2 0) as [->|N2].
  - reflexivity.
  - cbn [lex_leb]. symmetry. apply orb_true_iff. left. apply N.ltb_lt. lia.
  - cbn [lex_leb app].
    rewrite (proj2 (N.ltb_ge u1 0)) by lia.
    rewrite (proj2 (N.eqb_neq u1 0)) by exact N1. reflexivity.
  - rewrite lex_leb_same, lex_leb_fixed by assumption. reflexivity.
Qed.

End IsoText.

(** X8. The texts of two clock readings are in the order of the
    strings exactly when the readings are in the order of time, and
    different readings have different texts: sorting responses by their
    [dt] string sorts them by time.  This holds across the two shapes
    of the text, with and without the fraction. *)
Theorem isoformat_keeps_order (d1 d2 : datetime) :
  datetime_ok d1 = true ->
  datetime_ok d2 = true ->
  lex_leb (isoformat d1) (isoformat d2) = datetime_leb d1 d2 /\
  (isoformat d1 = isoformat d2 -> d1 = d2).
Proof.
  intros H1 H2. split.
  - destruct (datetime_ok_bounds d1 H1) as (Y1 & M1 & D1 & h1 & m1 & s1 & u1).
    destruct (datetime_ok_bounds d2 H2) as (Y2 & M2 & D2 & h2 & m2 & s2 & u2).
    rewrite !isoformat_fixed by assumption.
    repeat (rewrite lex_leb_fixed by assumption; rewrite lex_leb_same).
    rewrite lex_leb_fixed, lex_leb_fraction by assumption.
    reflexivity.
  - intros E. apply (f_equal parse_iso8601) in E.
    rewrite !parse_iso8601_isoformat in E by assumption. congruence.
Qed.

Lemma isoformat_keeps_order_witness :
  let d1 := mk_datetime 2024 3 9 7 5 2 0 in
  let d2 := mk_datetime 2024 3 9 7 5 2 1 in
  datetime_ok d1 = true /\ datetime_ok d2 = true /\
  lex_leb (isoformat d1) (isoformat d2) = true /\
  lex_leb (isoformat d2) (isoformat d1) = false.
Proof.
  cbv zeta.
  destruct (isoformat_keeps_order (mk_datetime 2024 3 9 7 5 2 0)
              (mk_datetime 2024 3 9 7 5 2 1) eq_refl eq_refl) as [H12 _].
  destruct (isoformat_keeps_order (mk_datetime 2024 3 9 7 5 2 1)
              (mk_datetime 2024 3 9 7 5 2 0) eq_refl eq_refl) as [H21 _].
  split; [reflexivity|]. split; [reflexivity|].
  split; [rewrite H12 | rewrite H21]; reflexivity.
Defined.

(** X9. The [dt] member of a GET or POST response has one of two
    shapes: 19 characters ([YYYY-MM-DDThh:mm:ss]) when the clock reading
    has no microseconds, 26 characters (with [.ffffff]) otherwise. *)
Theorem dt_text_length (r : request) (p : process) :
  command r = py "GET" \/ command r = py "POST" ->
  datetime_ok (clock p (clock_reads p)) = true ->
  exists o t,
    (handle_one_request r p).2 = Responded o /\
    body_field "dt" o = Some t /\
    length t
    = if microsecond (clock p (clock_reads p)) =? 0 then 19%nat else 26%nat.
Proof.
  intros Hc Hok. rewrite handle_get_post by exact Hc.
  eexists _, _. split; [reflexivity|]. split; [apply json_response_dt|].
  rewrite isoformat_fixed by exact Hok.
  destruct (microsecond _ =? 0);
    repeat (rewrite length_app || rewrite length_cons
            || rewrite fixed_digits_length); reflexivity.
Qed.

Lemma dt_text_length_witness :
  (command get_ex = py "GET" \/ command get_ex = py "POST") /\
  datetime_ok (clock process_ex (clock_reads process_ex)) = true /\
  exists o t,
    (handle_one_request get_ex process_ex).2 = Responded o /\
    body_field "dt" o = Some t /\ length t = 26%nat.
Proof.
  split; [left; reflexivity|]. split; [reflexivity|].
  apply (dt_text_length get_ex process_ex); [left|]; reflexivity.
Defined.

(** ** What the handler never does, and what it always sends *)

Section Never.

Lemma count_lines_log_line c pa ip :
  ~ In 10 c -> ~ In 10 pa -> ~ In 10 ip ->
  count_lines (log_line c pa ip ++ [10]) = 1%nat.
Proof.
  intros Hc Hp Hi. unfold log_line. rewrite !count_lines_app.
  rewrite (count_lines_none c), (count_lines_none pa), (count_lines_none ip)
    by assumption.
  assert (E1 : count_lines (py "Request received: ") = 0%nat)
    by (vm_compute; reflexivity).
  assert (E2 : count_lines (py " ") = 0%nat) by (vm_compute; reflexivity).
  assert (E3 : count_lines (py " from ") = 0%nat)
    by (vm_compute; reflexivity).
  assert (E4 : count_lines [10] = 1%nat) by (vm_compute; reflexivity).
  rewrite E1, E2, E3, E4. reflexivity.
Qed.

Lemma count_lines_console reqs :
  Forall (fun r => ~ In 10 (command r) /\ ~ In 10 (path r) /\
                   ~ In 10 (client_address r).1) reqs ->
  count_lines (flat_map console_of reqs) = length (filter get_or_post reqs).
Proof.
  induction 1 as [|r reqs (Hc & Hp & Hi) _ IH]; [reflexivity|].
  cbn [flat_map]. rewrite count_lines_app, IH.
  destruct (decide (get_or_post r)) as [Hg|Hg].
  - rewrite console_of_get_post, filter_cons_True by exact Hg.
    now rewrite count_lines_log_line.
  - now rewrite console_of_other, filter_cons_False by exact Hg.
Qed.

Lemma startup_lines s :
  count_lines
    ((((s ++ py "Script start" ++ [10]) ++ py "Server created" ++ [10]) ++
      py "Server listening callback" ++ [10]) ++
     py "Server running on " ++ HOST ++ py ":" ++ decimal PORT ++ [10])
  = (count_lines s + 4)%nat.
Proof.
  rewrite !count_lines_app.
  assert (E1 : count_lines (py "Script start") = 0%nat)
    by (vm_compute; reflexivity).
  assert (E2 : count_lines (py "Server created") = 0%nat)
    by (vm_compute; reflexivity).
  assert (E3 : count_lines (py "Server listening callback") = 0%nat)
    by (vm_compute; reflexivity).
  assert (E4 : count_lines (py "Server running on ") = 0%nat)
    by (vm_compute; reflexivity).
  assert (E5 : count_lines HOST = 0%nat) by (vm_compute; reflexivity).
  assert (E6 : count_lines (py ":") = 0%nat) by (vm_compute; reflexivity).
  assert (E7 : count_lines (decimal PORT) = 0%nat)
    by (vm_compute; reflexivity).
  assert (E8 : count_lines [10] = 1%nat) by (vm_compute; reflexivity).
  rewrite E1, E2, E3, E4, E5, E6, E7, E8. lia.
Qed.

Lemma startup_lines_unbound s :
  count_lines ((s ++ py "Script start" ++ [10]) ++ py "Server created" ++ [10])
  = (count_lines s + 2)%nat.
Proof.
  rewrite !count_lines_app.
  assert (E1 : count_lines (py "Script start") = 0%nat)
    by (vm_compute; reflexivity).
  assert (E2 : count_lines (py "Server created") = 0%nat)
    by (vm_compute; reflexivity).
  assert (E3 : count_lines [10] = 1%nat) by (vm_compute; reflexivity).
  rewrite E1, E2, E3. lia.
Qed.

Lemma utf8_encode_char_surrogate c :
  55296 <= c <= 57343 -> utf8_encode_char c = None.
Proof.
  intros [Hlo Hhi]. unfold utf8_encode_char.
  rewrite (proj2 (N.ltb_ge c 128)), (proj2 (N.ltb_ge c 2048)) by lia.
  replace ((55296 <=? c) && (c <=? 57343)) with true; [reflexivity|].
  symmetry. apply andb_true_iff. split; apply N.leb_le; assumption.
Qed.

(** [encode] raises on any text that holds a surrogate. *)
Lemma utf8_encode_surrogate s c :
  In c s -> 55296 <= c <= 57343 -> utf8_encode s = None.
Proof.
  intros Hin Hc. induction s as [|x s IH]; [destruct Hin|].
  cbn [utf8_encode]. destruct Hin as [->|Hin].
  - now rewrite utf8_encode_char_surrogate.
  - rewrite (IH Hin). now destruct (utf8_encode_char x).
Qed.

End Never.

(** X10. The [encode("utf-8")] of [handle_request] never raises
    [UnicodeEncodeError], whatever [SF_TAG] holds: [json.dumps] has
    written every character outside ASCII as an escape, so the text
    encodes to one byte per character.  The value of [SF_TAG] itself
    need not be encodable: [encode] raises on a text with a surrogate,
    such as [os.environ] gives for undecodable bytes. *)
Theorem encode_never_raises (dt : datetime) (version : str) :
  (exists body,
     utf8_encode (json_dumps (response_data dt version)) = Some body /\
     length body = length (json_dumps (response_data dt version))) /\
  (forall c, In c version -> 55296 <= c <= 57343 ->
             utf8_encode version = None).
Proof.
  split.
  - exists (map byte_of_N (json_dumps (response_data dt version))).
    split; [apply utf8_encode_ascii, json_dumps_ascii | apply length_map].
  - intros c. apply utf8_encode_surrogate.
Qed.

Lemma encode_never_raises_witness :
  utf8_encode [118; 56448] = None /\
  exists body,
    utf8_encode (json_dumps (response_data (clock_ex 0) [118; 56448]))
    = Some body.
Proof.
  destruct (encode_never_raises (clock_ex 0) [118; 56448])
    as [(body & Hb & _) Hraise].
  split.
  - apply (Hraise 56448); [right; left; reflexivity | lia].
  - exists body. exact Hb.
Defined.

(** X11. The headers of a response of the handler are, in the order of
    the buffer: [Server] and [Date], which [send_response] of the base
    class adds with its own values, then [Content-Type:
    application/json] (GET and POST only), then the three CORS headers.
    No header depends on the request and no [Content-Length] is sent:
    the end of the body is the end of the connection. *)
Theorem response_headers_exact (r : request) (p : process) (b : base) :
  handle_one_request_base r p = Some b ->
  headers_buffer b
  = [(py "Server", VersionString); (py "Date", DateTimeString)] ++
    (if decide (command r = py "OPTIONS") then []
     else [(py "Content-Type", Literal (py "application/json"))]) ++
    [(py "Access-Control-Allow-Origin", Literal (py "*"));
     (py "Access-Control-Allow-Methods", Literal (py "GET, POST, OPTIONS"));
     (py "Access-Control-Allow-Headers", Literal (py "Content-Type"))] /\
  (forall v, ~ In (py "Content-Length", v) (headers_buffer b)).
Proof.
  intros Hb.
  destruct (decide (command r = py "GET" \/ command r = py "POST"))
    as [Hgp|Hgp].
  - rewrite handle_base_get_post in Hb by exact Hgp. injection Hb as <-.
    rewrite decide_False
      by (destruct Hgp as [Hc|Hc]; rewrite Hc; discriminate).
    split; [reflexivity|].
    intros v. cbn. intros [H|[H|[H|[H|[H|[H|[]]]]]]]; discriminate H.
  - destruct (decide (command r = py "OPTIONS")) as [Ho|Ho].
    + rewrite handle_base_options in Hb by exact Ho. injection Hb as <-.
      split; [reflexivity|].
      intros v. cbn. intros [H|[H|[H|[H|[H|[]]]]]]; discriminate H.
    + rewrite handle_base_other in Hb by tauto. discriminate Hb.
Qed.

Lemma response_headers_exact_witness :
  handle_one_request_base get_ex process_ex = Some (json_base get_ex) /\
  map fst (headers_buffer (json_base get_ex))
  = [py "Server"; py "Date"; py "Content-Type";
     py "Access-Control-Allow-Origin"; py "Access-Control-Allow-Methods";
     py "Access-Control-Allow-Headers"].
Proof.
  assert (H : handle_one_request_base get_ex process_ex
              = Some (json_base get_ex))
    by (vm_compute; reflexivity).
  split; [exact H|].
  destruct (response_headers_exact get_ex process_ex _ H) as [E _].
  rewrite E. reflexivity.
Defined.

(** X12. Counting the lines on standard output: when no method, path or
    client address holds a newline (the request line is split on white
    space), the program has written, after any sequence of requests,
    its four start-up lines and one line for each GET or POST request,
    and nothing else; when the server cannot bind its address, it has
    written two lines. *)
Theorem main_line_count (bound : bool) (p : process) (reqs : list request) :
  Forall (fun r => ~ In 10 (command r) /\ ~ In 10 (path r) /\
                   ~ In 10 (client_address r).1) reqs ->
  count_lines (stdout (main bound p reqs).1)
  = (count_lines (stdout p) +
     if bound then 4 + length (filter get_or_post reqs) else 2)%nat.
Proof.
  intros H. unfold main. destruct bound.
  - set (q := write_stdout _ _).
    assert (E : serve_forever q reqs
                = ((serve_forever q reqs).1, (serve_forever q reqs).2))
      by now destruct (serve_forever q reqs).
    rewrite E. cbn [fst]. rewrite serve_forever_stdout.
    unfold q, write_stdout. cbn [stdout].
    rewrite count_lines_app, startup_lines, count_lines_console by exact H.
    lia.
  - unfold write_stdout. cbn [fst stdout]. apply startup_lines_unbound.
Qed.

Lemma main_line_count_witness :
  Forall (fun r => ~ In 10 (command r) /\ ~ In 10 (path r) /\
                   ~ In 10 (client_address r).1)
    [get_ex; options_ex; post_ex; delete_ex] /\
  count_lines
    (stdout (main true process_untagged_ex
               [get_ex; options_ex; post_ex; delete_ex]).1) = 6%nat /\
  count_lines
    (stdout (main false process_untagged_ex
               [get_ex; options_ex; post_ex; delete_ex]).1) = 2%nat.
Proof.
  assert (H : Forall (fun r => ~ In 10 (command r) /\ ~ In 10 (path r) /\
                               ~ In 10 (client_address r).1)
                [get_ex; options_ex; post_ex; delete_ex])
    by (repeat constructor; vm_compute; intuition discriminate).
  split; [exact H|].
  rewrite (main_line_count true process_untagged_ex _ H).
  rewrite (main_line_count false process_untagged_ex _ H).
  split; reflexivity.
Defined.

(** X13. The clock is read once for each response with a body and never
    otherwise: after any run, the number of calls of [datetime.now()]
    has grown by the number of JSON responses sent, and the clock itself
    is as it was. *)
Theorem clock_read_once_per_body (p : process) (reqs : list request) :
  clock_reads (serve_forever p reqs).1
  = (clock_reads p +
     length (filter (fun o => has_body o = true) (serve_forever p reqs).2))%nat /\
  clock (serve_forever p reqs).1 = clock p.
Proof.
  split; [|apply serve_forever_process].
  revert p. induction reqs as [|r reqs IH]; intros p; [cbn; lia|].
  rewrite serve_forever_cons. cbn [fst snd].
  destruct (handle_cases r p) as [[Hc E]|[[Hc E]|[Hc E]]];
    rewrite E; cbn [fst snd]; rewrite IH.
  - rewrite filter_cons_True by apply has_body_json_response.
    cbn [process_after clock_reads length]. lia.
  - rewrite filter_cons_False by (cbn; discriminate). reflexivity.
  - rewrite filter_cons_False by (cbn; discriminate). reflexivity.
Qed.
